(** * Zeno clients: the authenticated calls of the web and iOS front-ends

    A shallow embedding of the two pieces of client code that talk to the
    backend:

    - [Web.testApi] of [frontend/src/components/TestBackend.tsx], together
      with the endpoint selector of the same component;
    - [IOS.fetchConnectionDetails] and its helpers of the Swift actor
      [TokenService].

    Both are straight-line asynchronous procedures over platform calls
    (Clerk, [fetch], [URLSession], React state setters).  A procedure is a
    finite tree of platform calls ([Free.Prog]); running it against an
    arbitrary, possibly stateful, environment yields the list of calls
    made with their answers, the result, and the environment afterwards.
    Console output ([console.log], [print]) is left out: it has no
    bearing on requests, results or view state. *)

From stdpp Require Import base strings gmap list pretty.

Local Open Scope string_scope.
Local Open Scope Z_scope.
Local Open Scope list_scope.

(** ** JSON values, as both clients decode them *)

#[warnings="-register-all"]
Inductive JSON : Type :=
| JNull
| JBool (b : bool)
| JNumber (z : Z)
| JString (s : string)
| JArray (l : list JSON)
| JObject (m : gmap string JSON).

(** The HTTP "ok" range: the Fetch standard's [Response.ok] and Swift's
    [(200...299).contains]. *)
Definition is_2xx (status : Z) : bool := (200 <=? status) && (status <=? 299).

(** ** Programs over platform calls *)

Module Free.
Section Interface.
Context {E : Type -> Type}.

Inductive Prog (R : Type) : Type :=
| Ret (r : R)
| Vis {X : Type} (e : E X) (k : X -> Prog R).
Arguments Ret {R} r.
Arguments Vis {R X} e k.

Fixpoint bind {A B : Type} (p : Prog A) (f : A -> Prog B) : Prog B :=
  match p with
  | Ret a => f a
  | Vis e k => Vis e (fun x => bind (k x) f)
  end.

Definition call {X : Type} (e : E X) : Prog X := Vis e Ret.

(** One platform call with the answer the environment gave. *)
Record Event : Type := Ev { ev_type : Type; ev_call : E ev_type; ev_answer : ev_type }.

Section Run.
Context {W : Type} (h : forall X, E X -> W -> X * W).

Fixpoint run {R : Type} (p : Prog R) (w : W) : list Event * R * W :=
  match p with
  | Ret r => ([], r, w)
  | Vis e k =>
      let xw := h _ e w in
      let out := run (k xw.1) xw.2 in
      (Ev _ e xw.1 :: out.1.1, out.1.2, out.2)
  end.

Definition trace {R : Type} (p : Prog R) (w : W) : list Event := (run p w).1.1.
Definition result {R : Type} (p : Prog R) (w : W) : R := (run p w).1.2.
Definition world_after {R : Type} (p : Prog R) (w : W) : W := (run p w).2.
End Run.

(** *** Code that may throw

    An awaited call either returns or throws; [and_then] is sequencing
    in a [try] context, [try_catch] and [try_finally] are the blocks of
    the same names. *)

Inductive Outcome (Err A : Type) : Type :=
| Returned (a : A)
| Thrown (e : Err).
Arguments Returned {Err A} a.
Arguments Thrown {Err A} e.

Definition Async (Err A : Type) : Type := Prog (Outcome Err A).

Definition pure {Err A} (a : A) : Async Err A := Ret (Returned a).
Definition throw {Err A} (e : Err) : Async Err A := Ret (Thrown e).
Definition await {Err A} (c : E (Outcome Err A)) : Async Err A := call c.
Definition perform {Err A} (c : E A) : Async Err A := bind (call c) pure.

Definition and_then {Err A B} (p : Async Err A) (f : A -> Async Err B) : Async Err B :=
  bind p (fun r => match r with
                   | Returned a => f a
                   | Thrown e => Ret (Thrown e)
                   end).

Definition try_catch {Err A} (p : Async Err A) (handler : Err -> Async Err A) : Async Err A :=
  bind p (fun r => match r with
                   | Returned a => Ret (Returned a)
                   | Thrown e => handler e
                   end).

Definition try_finally {Err A} (p : Async Err A) (q : Async Err unit) : Async Err A :=
  bind p (fun r => bind q (fun r' => match r' with
                                     | Returned _ => Ret r
                                     | Thrown e => Ret (Thrown e)
                                     end)).
End Interface.
Arguments Prog : clear implicits.
Arguments Event : clear implicits.
Arguments Async : clear implicits.
Arguments Ret {E R} r.
Arguments Vis {E R X} e k.
Arguments Ev {E} ev_type ev_call ev_answer.
Arguments Returned {Err A} a.
Arguments Thrown {Err A} e.

Notation "x <- p ;; q" := (and_then p (fun x => q))
  (at level 100, p at next level, right associativity).
Notation "p ;;; q" := (and_then p (fun _ => q))
  (at level 100, right associativity).
End Free.

Import Free.

(** ** The web client: [TestBackend.tsx] *)

Module Web.

(** An exception object, as [fetch], [Response.text] and [Response.json]
    reject with by the Fetch standard; [message] is what reading
    [error.message] gives ([None] for undefined). *)
Record JsError : Type := Error { message : option string }.

(** A promise of the Fetch API settles: awaiting it returns its value or
    throws an exception object. *)
Definition Settled (A : Type) : Type := Outcome JsError A.

(** A value caught by [catch (error: any)].  Clerk's [getToken] is under
    no such standard: its promise may reject with any value, [null] and
    [undefined] among them.  Every other value is taken by what reading
    [.message] on it gives. *)
Inductive Caught : Type :=
| null
| undefined
| object (e : JsError).

(** The [TypeError] of reading a property of [null] or [undefined]; the
    wording of its message is the engine's. *)
Definition TypeError (value : string) : JsError :=
  Error (Some ("Cannot read properties of " +:+ value +:+ " (reading 'message')")).

(** [error.message] *)
Definition read_message (error : Caught) : Outcome Caught (option string) :=
  match error with
  | null => Thrown (object (TypeError "null"))
  | undefined => Thrown (object (TypeError "undefined"))
  | object e => Returned (message e)
  end.

Record ApiResponse : Type := mkApiResponse {
  success : bool;
  data : option JSON;
  error : option string
}.

(** What the component reads of a [Response]: its status line.  [ok] is
    defined by the platform as status in 200..299. *)
Record Response : Type := mkResponse { status : Z }.
Definition ok (r : Response) : bool := is_2xx (status r).

Record RequestInit : Type := mkInit {
  method : string;
  headers : gmap string string
}.

Inductive Call : Type -> Type :=
| setLoading (b : bool) : Call unit
| setResponse (r : option ApiResponse) : Call unit
| getToken : Call (Outcome Caught (option string))
| fetch (url : string) (init : RequestInit) : Call (Settled Response)
| text (r : Response) : Call (Settled string)
| json (r : Response) : Call (Settled JSON).

(** JavaScript truthiness of a string, and [a || b] on strings. *)
Definition truthy (s : string) : bool := negb (String.eqb s "").
Definition or_else (a : option string) (b : string) : string :=
  match a with
  | Some s => if truthy s then s else b
  | None => b
  end.

Definition new_Error (msg : string) : Caught := object (Error (Some msg)).

(** Awaiting a promise of the Fetch API inside [try]. *)
Definition await_fetch {A} (c : Call (Settled A)) : Async Call Caught A :=
  bind (call c) (fun r => Ret (match r with
                               | Returned a => Returned a
                               | Thrown e => Thrown (object e)
                               end)).

Section Component.
(** [import.meta.env.VITE_API_BASE_URL], fixed at build time. *)
Variable VITE_API_BASE_URL : option string.

Definition apiBaseUrl : string := or_else VITE_API_BASE_URL "http://localhost:8000".

Definition request_headers (token : string) : gmap string string :=
  <["Authorization" := "Bearer " +:+ token]>
    (<["Content-Type" := "application/json"]> ∅).

Definition testApi (endpoint : string) : Async Call Caught unit :=
  perform (setLoading true) ;;;
  perform (setResponse None) ;;;
  try_finally
    (try_catch
       (token <- await getToken ;;
        match token with
        | None => throw (new_Error "No auth token available")
        | Some token =>
            if negb (truthy token) then throw (new_Error "No auth token available")
            else
              response <- await_fetch (fetch (apiBaseUrl +:+ endpoint)
                                         (mkInit "GET" (request_headers token))) ;;
              if negb (ok response) then
                errorText <- await_fetch (text response) ;;
                throw (new_Error ("HTTP " +:+ pretty (status response) +:+ ": " +:+ errorText))
              else
                data <- await_fetch (json response) ;;
                perform (setResponse (Some (mkApiResponse true (Some data) None)))
        end)
       (fun error =>
          msg <- Ret (read_message error) ;;
          perform (setResponse
            (Some (mkApiResponse false None
                     (Some (or_else msg "Unknown error occurred")))))))
    (perform (setLoading false)).
End Component.

(** *** View state and what the component renders *)

Record State : Type := mkState {
  loading : bool;
  response : option ApiResponse;
  endpoint : string
}.

(** [useState(false)], [useState(null)], [useState('/user/test-auth')]. *)
Definition initial : State := mkState false None "/user/test-auth".

Definition apply_event (st : State) (ev : Event Call) : State :=
  match ev_call ev with
  | setLoading b => mkState b (response st) (endpoint st)
  | setResponse r => mkState (loading st) r (endpoint st)
  | _ => st
  end.

Definition apply_trace (tr : list (Event Call)) (st : State) : State :=
  foldl apply_event st tr.

(** The result panel of the JSX: nothing while [response] is null, the
    payload when [response.success], [response.error] otherwise. *)
Inductive Panel : Type :=
| NoPanel
| SuccessPanel (payload : option JSON)
| ErrorPanel (msg : option string).

Definition render (st : State) : Panel :=
  match response st with
  | None => NoPanel
  | Some r => if success r then SuccessPanel (data r) else ErrorPanel (error r)
  end.

(** *** Observations on a trace *)

Definition fetch_of (ev : Event Call) : option (string * RequestInit) :=
  match ev_call ev with
  | fetch url init => Some (url, init)
  | _ => None
  end.

Definition fetches (tr : list (Event Call)) : list (string * RequestInit) :=
  omap fetch_of tr.

(** The responses the component was given to show (non-null [setResponse]). *)
Definition shown_of (ev : Event Call) : option ApiResponse :=
  match ev_call ev with
  | setResponse r => r
  | _ => None
  end.

Definition shown (tr : list (Event Call)) : list ApiResponse := omap shown_of tr.

(** *** The control-flow paths of [testApi] *)

Inductive Path : Type :=
| TokenRejected (e : Caught)
| NoToken (t : option string)
| FetchRejected (token : string) (e : JsError)
| TextRejected (token : string) (r : Response) (e : JsError)
| HttpError (token : string) (r : Response) (errorText : string)
| JsonRejected (token : string) (r : Response) (e : JsError)
| Parsed (token : string) (r : Response) (d : JSON).

Definition failure (msg : option string) : ApiResponse :=
  mkApiResponse false None (Some (or_else msg "Unknown error occurred")).

Section Paths.
Variable VITE_API_BASE_URL : option string.
Variable ep : string.

Definition the_fetch (token : string) : Call (Settled Response) :=
  fetch (apiBaseUrl VITE_API_BASE_URL +:+ ep) (mkInit "GET" (request_headers token)).

Definition got (token : string) : Event Call := Ev _ getToken (Returned (Some token)).

(** What the [catch] block makes of a caught value: the result it shows,
    or the error it throws in turn. *)
Definition caught (error : Caught) : Outcome Caught ApiResponse :=
  match read_message error with
  | Returned msg => Returned (failure msg)
  | Thrown e => Thrown e
  end.

Definition ending (p : Path) : Outcome Caught ApiResponse :=
  match p with
  | TokenRejected e => caught e
  | FetchRejected _ e | TextRejected _ _ e | JsonRejected _ _ e => caught (object e)
  | NoToken _ => caught (new_Error "No auth token available")
  | HttpError _ r errorText =>
      caught (new_Error ("HTTP " +:+ pretty (status r) +:+ ": " +:+ errorText))
  | Parsed _ _ d => Returned (mkApiResponse true (Some d) None)
  end.

Definition middle (p : Path) : list (Event Call) :=
  match p with
  | TokenRejected e => [Ev _ getToken (Thrown e)]
  | NoToken t => [Ev _ getToken (Returned t)]
  | FetchRejected token e => [got token; Ev _ (the_fetch token) (Thrown e)]
  | TextRejected token r e =>
      [got token; Ev _ (the_fetch token) (Returned r); Ev _ (text r) (Thrown e)]
  | HttpError token r errorText =>
      [got token; Ev _ (the_fetch token) (Returned r); Ev _ (text r) (Returned errorText)]
  | JsonRejected token r e =>
      [got token; Ev _ (the_fetch token) (Returned r); Ev _ (json r) (Thrown e)]
  | Parsed token r d =>
      [got token; Ev _ (the_fetch token) (Returned r); Ev _ (json r) (Returned d)]
  end.

Definition events (p : Path) : list (Event Call) :=
  [Ev _ (setLoading true) tt; Ev _ (setResponse None) tt]
    ++ middle p
    ++ match ending p with
       | Returned r => [Ev _ (setResponse (Some r)) tt]
       | Thrown _ => []
       end
    ++ [Ev _ (setLoading false) tt].

(** What the caller of [testApi] gets. *)
Definition outcome (p : Path) : Outcome Caught unit :=
  match ending p with
  | Returned _ => Returned tt
  | Thrown e => Thrown e
  end.

(** The side conditions under which a path is taken. *)
Definition feasible (p : Path) : bool :=
  match p with
  | TokenRejected _ => true
  | NoToken t => match t with Some s => negb (truthy s) | None => true end
  | FetchRejected token _ => truthy token
  | TextRejected token r _ | HttpError token r _ => truthy token && negb (ok r)
  | JsonRejected token r _ | Parsed token r _ => truthy token && ok r
  end.
End Paths.

(** Answers of the environment, read off a trace. *)
Definition token_of (ev : Event Call) : option (option string) :=
  match ev with
  | Ev _ c a =>
      match c in Call X return X -> option (option string) with
      | getToken => fun a => match a with Returned t => Some t | Thrown _ => None end
      | _ => fun _ => None
      end a
  end.

Definition received_of (ev : Event Call) : option Response :=
  match ev with
  | Ev _ c a =>
      match c in Call X return X -> option Response with
      | fetch _ _ => fun a => match a with Returned r => Some r | Thrown _ => None end
      | _ => fun _ => None
      end a
  end.

Definition transport_failure_of (ev : Event Call) : option JsError :=
  match ev with
  | Ev _ c a =>
      match c in Call X return X -> option JsError with
      | fetch _ _ => fun a => match a with Returned _ => None | Thrown e => Some e end
      | _ => fun _ => None
      end a
  end.

Definition parsed_of (ev : Event Call) : option JSON :=
  match ev with
  | Ev _ c a =>
      match c in Call X return X -> option JSON with
      | json _ => fun a => match a with Returned d => Some d | Thrown _ => None end
      | _ => fun _ => None
      end a
  end.

Definition rejection_of (ev : Event Call) : option Caught :=
  match ev with
  | Ev _ c a =>
      match c in Call X return X -> option Caught with
      | getToken => fun a => match a with Returned _ => None | Thrown e => Some e end
      | fetch _ _ => fun a => match a with Returned _ => None | Thrown e => Some (object e) end
      | text _ => fun a => match a with Returned _ => None | Thrown e => Some (object e) end
      | json _ => fun a => match a with Returned _ => None | Thrown e => Some (object e) end
      | _ => fun _ => None
      end a
  end.

(** Tokens Clerk handed out, responses received, transport failures of
    [fetch], bodies that parsed as JSON, and every rejected promise. *)
Definition tokens (tr : list (Event Call)) : list (option string) := omap token_of tr.
Definition received (tr : list (Event Call)) : list Response := omap received_of tr.
Definition transport_failures (tr : list (Event Call)) : list JsError :=
  omap transport_failure_of tr.
Definition parsed_bodies (tr : list (Event Call)) : list JSON := omap parsed_of tr.
Definition rejections (tr : list (Event Call)) : list Caught := omap rejection_of tr.

(** [null] and [undefined], the values no property can be read of. *)
Definition nullish (c : Caught) : bool :=
  match c with
  | null | undefined => true
  | object _ => false
  end.

(** *** The endpoint selector and the button *)

Record Endpoint : Type := mkEndpoint { path : string; label : string }.

Definition endpoints : list Endpoint :=
  [ mkEndpoint "/user/test-auth" "Test Auth";
    mkEndpoint "/user/me" "Get Profile";
    mkEndpoint "/user/tasks" "Get Tasks";
    mkEndpoint "/user/briefings" "Get Briefings";
    mkEndpoint "/user/sessions" "Get Sessions" ].

(** The [value] of each rendered [<option>]. *)
Definition options : list string := map path endpoints.

(** What the user can do: pick the [i]-th option of the [<select>]
    (its [onChange] carries that option's value), or press the button. *)
Inductive Action : Type :=
| change (i : nat)
| click.

Record Config (W : Type) : Type := mkConfig {
  view : State;
  log : list (Event Call);
  world : W
}.
Arguments mkConfig {W} view log world.
Arguments view {W} c.
Arguments log {W} c.
Arguments world {W} c.

Section UI.
Context {W : Type} (h : forall X, Call X -> W -> X * W).
Variable VITE_API_BASE_URL : option string.

Definition setEndpoint (value : string) (st : State) : State :=
  mkState (loading st) (response st) value.

(** [onClick={() => testApi(endpoint)}], with [disabled={loading}]. *)
Definition act (c : Config W) (a : Action) : Config W :=
  match a with
  | change i =>
      match options !! i with
      | Some value => mkConfig (setEndpoint value (view c)) (log c) (world c)
      | None => c
      end
  | click =>
      if loading (view c) then c
      else
        let out := run h (testApi VITE_API_BASE_URL (endpoint (view c))) (world c) in
        mkConfig (apply_trace out.1.1 (view c)) (log c ++ out.1.1) out.2
  end.

Definition interact (actions : list Action) (w : W) : Config W :=
  foldl act (mkConfig initial [] w) actions.

(** What stays true of the component whatever the user does. *)
Definition fetch_allowed (f : string * RequestInit) : Prop :=
  exists p token,
    p ∈ options
    /\ f = (apiBaseUrl VITE_API_BASE_URL +:+ p, mkInit "GET" (request_headers token)).

Definition selector_invariant (c : Config W) : Prop :=
  endpoint (view c) ∈ options /\ Forall fetch_allowed (fetches (log c)).
End UI.

(** *** Scripted environments *)

Record Script : Type := mkScript {
  token_answer : Outcome Caught (option string);
  fetch_answer : Settled Response;
  text_answer : Settled string;
  json_answer : Settled JSON
}.

Definition scripted (s : Script) : forall X, Call X -> unit -> X * unit :=
  fun X c w =>
    match c in Call X return X * unit with
    | setLoading _ => (tt, w)
    | setResponse _ => (tt, w)
    | getToken => (token_answer s, w)
    | fetch _ _ => (fetch_answer s, w)
    | text _ => (text_answer s, w)
    | json _ => (json_answer s, w)
    end.

End Web.

(** ** The iOS client: the actor [TokenService] *)

Module IOS.

Record ConnectionDetails : Type := mkConnectionDetails {
  serverUrl : string;
  roomName : string;
  participantName : string;
  participantToken : string
}.

Record BackendResponse : Type := mkBackendResponse {
  session_id : string;
  room_name : string;
  livekit_token : string;
  livekit_url : string;
  agent_type : string;
  user_id : string
}.

Inductive TokenServiceError : Type :=
| authenticationFailed
| backendError (message : string)
| invalidResponse.

Definition errorDescription (e : TokenServiceError) : option string :=
  match e with
  | authenticationFailed => Some "Failed to authenticate with Clerk"
  | backendError message => Some ("Backend error: " +:+ message)
  | invalidResponse => Some "Invalid response from backend"
  end.

(** What [JSONDecoder] throws. *)
Inductive DecodingError : Type :=
| dataCorrupted
| typeMismatch (key : option string)
| keyNotFound (key : string)
| valueNotFound (key : string).

(** Swift's [throws] is untyped: the errors that travel through
    [TokenService] are its own, the decoder's, and those of the platform
    ([URLSession], Clerk), kept by their description. *)
Inductive SwiftError : Type :=
| tokenServiceError (e : TokenServiceError)
| decodingError (e : DecodingError)
| platformError (description : string).

Definition Throws (A : Type) : Type := Outcome SwiftError A.

(** A [Data] value, by what the platform decoders make of it:
    [String(data:encoding: .utf8)] and the JSON parser of [JSONDecoder]. *)
Record Data : Type := mkData {
  utf8 : option string;
  parsed : option JSON
}.

Inductive URLResponse : Type :=
| HTTPURLResponse (statusCode : Z)
| otherURLResponse.

(** [httpBody] holds the object handed to [JSONSerialization]. *)
Record URLRequest : Type := mkURLRequest {
  url : string;
  httpMethod : string;
  allHTTPHeaderFields : gmap string string;
  httpBody : option JSON
}.

Definition URLRequest_init (u : string) : URLRequest := mkURLRequest u "GET" ∅ None.

Definition set_httpMethod (m : string) (r : URLRequest) : URLRequest :=
  mkURLRequest (url r) m (allHTTPHeaderFields r) (httpBody r).

(** [addValue(_:forHTTPHeaderField:)] appends to a value already there. *)
Definition addValue (value field : string) (r : URLRequest) : URLRequest :=
  let new := match allHTTPHeaderFields r !! field with
             | Some old => old +:+ "," +:+ value
             | None => value
             end in
  mkURLRequest (url r) (httpMethod r) (<[field := new]> (allHTTPHeaderFields r)) (httpBody r).

Definition set_httpBody (b : JSON) (r : URLRequest) : URLRequest :=
  mkURLRequest (url r) (httpMethod r) (allHTTPHeaderFields r) (Some b).

Inductive ClerkSession : Type := clerkSession (id : nat).
Record TokenResource : Type := mkTokenResource { jwt : option string }.

Inductive Call : Type -> Type :=
| Clerk_shared_session : Call (option ClerkSession)
| session_getToken (s : ClerkSession) : Call (Throws (option TokenResource))
| value_forKey (t : option TokenResource) (key : string) : Call (option string)
| URLSession_shared_data (request : URLRequest) : Call (Throws (Data * URLResponse)).

(** *** Strings *)

Fixpoint hasSuffix_char (c : Ascii.ascii) (s : string) : bool :=
  match s with
  | EmptyString => false
  | String a EmptyString => bool_decide (a = c)
  | String _ rest => hasSuffix_char c rest
  end.

Fixpoint dropLast (s : string) : string :=
  match s with
  | EmptyString => EmptyString
  | String _ EmptyString => EmptyString
  | String a rest => String a (dropLast rest)
  end.

Fixpoint drop_leading (c : Ascii.ascii) (s : string) : string :=
  match s with
  | EmptyString => EmptyString
  | String a rest => if bool_decide (a = c) then drop_leading c rest else s
  end.

(** The string without any of its trailing [c]: what a base URL "without
    any trailing slash" is; the actor itself uses [dropLast]. *)
Fixpoint without_trailing (c : Ascii.ascii) (s : string) : string :=
  match s with
  | EmptyString => EmptyString
  | String a rest =>
      match without_trailing c rest with
      | EmptyString => if bool_decide (a = c) then EmptyString else String a EmptyString
      | r => String a r
      end
  end.

(** [trimmingCharacters(in:)] for a one-character set. *)
Definition trimmingCharacters (c : Ascii.ascii) (s : string) : string :=
  String.rev (drop_leading c (String.rev (drop_leading c s))).

Definition quote : Ascii.ascii := Ascii.ascii_of_nat 34.
Definition slash : Ascii.ascii := Ascii.ascii_of_nat 47.

(** *** Decoding [BackendResponse]: the synthesized [init(from:)] *)

Definition decode_String (m : gmap string JSON) (key : string) : Outcome DecodingError string :=
  match m !! key with
  | None => Thrown (keyNotFound key)
  | Some (JString s) => Returned s
  | Some JNull => Thrown (valueNotFound key)
  | Some _ => Thrown (typeMismatch (Some key))
  end.

Definition bind_decode {A B} (r : Outcome DecodingError A) (f : A -> Outcome DecodingError B)
  : Outcome DecodingError B :=
  match r with
  | Returned a => f a
  | Thrown e => Thrown e
  end.

Definition decode_BackendResponse (d : Data) : Outcome DecodingError BackendResponse :=
  match parsed d with
  | None => Thrown dataCorrupted
  | Some (JObject m) =>
      bind_decode (decode_String m "session_id") (fun a =>
      bind_decode (decode_String m "room_name") (fun b =>
      bind_decode (decode_String m "livekit_token") (fun c =>
      bind_decode (decode_String m "livekit_url") (fun d =>
      bind_decode (decode_String m "agent_type") (fun e =>
      bind_decode (decode_String m "user_id") (fun f =>
      Returned (mkBackendResponse a b c d e f)))))))
  | Some _ => Thrown (typeMismatch None)
  end.

Section Actor.
(** The value of [ApiBaseUrl] in Info.plist, when it is a string. *)
Variable ApiBaseUrl : option string.

Definition apiBaseUrl : string :=
  match ApiBaseUrl with
  | Some url => trimmingCharacters quote url
  | None => "https://d95f3ba12854.ngrok-free.app/"
  end.

Definition getClerkSessionToken : Prog Call (option string) :=
  bind (call Clerk_shared_session) (fun session =>
  match session with
  | None => Ret None
  | Some session =>
      bind (call (session_getToken session)) (fun got : Throws (option TokenResource) =>
      match got with
      | Thrown _ => Ret None
      | Returned tokenResource =>
          match tokenResource ≫= jwt with
          | Some tokenString => Ret (Some tokenString)
          | None =>
              bind (call (value_forKey tokenResource "token")) (fun v =>
              match v with
              | Some tokenString => Ret (Some tokenString)
              | None => Ret None
              end)
          end
      end)
  end).

Definition cleanBaseUrl : string :=
  if hasSuffix_char slash apiBaseUrl then dropLast apiBaseUrl else apiBaseUrl.

Definition request_body : gmap string JSON :=
  <["agent_type" := JString "main_zeno"]>
    (<["session_type" := JString "ios"]>
       (<["initial_context" := JObject ∅]> ∅)).

Definition the_request (clerkToken : string) : URLRequest :=
  let url := cleanBaseUrl +:+ "/agent/session/create" in
  let request := URLRequest_init url in
  let request := set_httpMethod "POST" request in
  let request := addValue "application/json" "Content-Type" request in
  let request := addValue ("Bearer " +:+ clerkToken) "Authorization" request in
  set_httpBody (JObject request_body) request.

(** What follows [URLSession.shared.data(for:)] once it has returned. *)
Definition handle_response (data : Data) (response : URLResponse)
  : Throws ConnectionDetails :=
  match response with
  | otherURLResponse => Thrown (tokenServiceError (backendError "Invalid response"))
  | HTTPURLResponse statusCode =>
      if negb (is_2xx statusCode) then
        let errorMessage := default "Unknown error" (utf8 data) in
        Thrown (tokenServiceError
                  (backendError ("HTTP " +:+ pretty statusCode +:+ ": " +:+ errorMessage)))
      else
        match decode_BackendResponse data with
        | Thrown e => Thrown (decodingError e)
        | Returned backendResponse =>
            Returned (mkConnectionDetails
                        (livekit_url backendResponse)
                        (room_name backendResponse)
                        "user"
                        (livekit_token backendResponse))
        end
  end.

(** The outcome of the call given what [URLSession] answered: an error
    thrown by [try await] passes through unchanged. *)
Definition settle (answer : Throws (Data * URLResponse)) : Throws ConnectionDetails :=
  match answer with
  | Returned a => handle_response a.1 a.2
  | Thrown e => Thrown e
  end.

Definition fetchConnectionDetailsFromBackend (clerkToken : string)
  : Async Call SwiftError ConnectionDetails :=
  answer <- await (URLSession_shared_data (the_request clerkToken)) ;;
  Ret (handle_response answer.1 answer.2).

Definition fetchConnectionDetails (roomName participantName : string)
  : Async Call SwiftError ConnectionDetails :=
  bind getClerkSessionToken (fun token =>
  match token with
  | None => throw (tokenServiceError authenticationFailed)
  | Some clerkToken =>
      backendDetails <- fetchConnectionDetailsFromBackend clerkToken ;;
      pure backendDetails
  end).
End Actor.

(** *** Observations on a trace *)

Definition post_of (ev : Event Call) : option URLRequest :=
  match ev_call ev with
  | URLSession_shared_data request => Some request
  | _ => None
  end.

Definition posts (tr : list (Event Call)) : list URLRequest := omap post_of tr.

Definition answer_of (ev : Event Call) : option (Throws (Data * URLResponse)) :=
  match ev with
  | Ev _ c a =>
      match c in Call X return X -> option (Throws (Data * URLResponse)) with
      | URLSession_shared_data _ => fun a => Some a
      | _ => fun _ => None
      end a
  end.

(** What [URLSession] answered to each request of the trace. *)
Definition answers (tr : list (Event Call)) : list (Throws (Data * URLResponse)) :=
  omap answer_of tr.

(** *** Scripted environments *)

Record Script : Type := mkScript {
  session_answer : option ClerkSession;
  token_answer : Throws (option TokenResource);
  kvc_answer : option string;
  data_answer : Throws (Data * URLResponse)
}.

Definition scripted (s : Script) : forall X, Call X -> unit -> X * unit :=
  fun X c w =>
    match c in Call X return X * unit with
    | Clerk_shared_session => (session_answer s, w)
    | session_getToken _ => (token_answer s, w)
    | value_forKey _ _ => (kvc_answer s, w)
    | URLSession_shared_data _ => (data_answer s, w)
    end.

End IOS.

(** ** Concrete environments used in examples *)

Module Scenarios.


(** The backend answers 404 with a plain-text body. *)
Definition not_found : Web.Script :=
  Web.mkScript (Returned (Some "jwt")) (Returned (Web.mkResponse 404)) (Returned "Not Found")
    (Thrown (Web.Error (Some "Unexpected token N in JSON at position 0"))).

(** The network is down: [fetch] rejects. *)
Definition offline : Web.Script :=
  Web.mkScript (Returned (Some "jwt")) (Thrown (Web.Error (Some "Failed to fetch")))
    (Returned "") (Returned JNull).

(** A signed-in user and a backend that answers 200 with a complete
    session object. *)
Definition session_object : gmap string JSON :=
  list_to_map
    [ ("session_id", JString "s-1"); ("room_name", JString "room-1");
      ("livekit_token", JString "lk-token"); ("livekit_url", JString "wss://lk.example");
      ("agent_type", JString "main_zeno"); ("user_id", JString "u-1") ].

Definition signed_in (answer : IOS.Throws (IOS.Data * IOS.URLResponse)) : IOS.Script :=
  IOS.mkScript (Some (IOS.clerkSession 0))
    (Returned (Some (IOS.mkTokenResource (Some "jwt")))) None answer.

Definition session_created : IOS.Script :=
  signed_in (Returned (IOS.mkData (Some "(session object)") (Some (JObject session_object)),
                       IOS.HTTPURLResponse 200)).

Definition server_error : IOS.Script :=
  signed_in (Returned (IOS.mkData (Some "Internal Server Error") None,
                       IOS.HTTPURLResponse 500)).

(** Clerk has a session but cannot be reached for a token. *)
Definition clerk_unreachable : IOS.Script :=
  IOS.mkScript (Some (IOS.clerkSession 0))
    (Thrown (IOS.platformError "The network connection was lost.")) None
    (Returned (IOS.mkData (Some "(session object)") (Some (JObject session_object)),
               IOS.HTTPURLResponse 200)).

(** Clerk's [getToken] rejects with [null]. *)
Definition clerk_rejects_null : Web.Script :=
  Web.mkScript (Thrown Web.null) (Returned (Web.mkResponse 200)) (Returned "")
    (Returned JNull).

Definition connection_lost : IOS.Script :=
  signed_in (Thrown (IOS.platformError "The Internet connection appears to be offline.")).

End Scenarios.

(** ** More of the two clients *)

(** Further observations on runs of [testApi] and on user sessions. *)
Module WebSession.
Import Web.

(** The error bodies read with [response.text()]. *)
Definition text_of (ev : Event Call) : option string :=
  match ev with
  | Ev _ c a =>
      match c in Call X return X -> option string with
      | text _ => fun a => match a with Returned t => Some t | Thrown _ => None end
      | _ => fun _ => None
      end a
  end.

Definition texts (tr : list (Event Call)) : list string := omap text_of tr.

(** Calls that leave the component: Clerk and the network. *)
Definition is_external (ev : Event Call) : bool :=
  match ev_call ev with
  | setLoading _ | setResponse _ => false
  | _ => true
  end.

Definition is_click (a : Action) : bool :=
  match a with
  | click => true
  | change _ => false
  end.

(** The option values the user picked, in order. *)
Definition choice_of (a : Action) : option string :=
  match a with
  | change i => options !! i
  | click => None
  end.

Definition choices (actions : list Action) : list string := omap choice_of actions.

End WebSession.

(** The [Dashboard] component of the web client. *)
Module Dashboard.

Record Task : Type := mkTask {
  id : Z;
  title : string;
  completed : bool
}.

Record User : Type := mkUser {
  user_id : string;
  firstName : option string
}.

Record State : Type := mkState {
  briefing : string;
  tasks : list Task;
  loading : bool
}.

(** [useState('')], [useState([])], [useState(true)]. *)
Definition initial : State := mkState "" [] true.

(** The checkbox handler:
    [tasks.map(t => t.id === task.id ? { ...t, completed: !t.completed } : t)]. *)
Definition toggle (task_id : Z) (tasks : list Task) : list Task :=
  map (fun t => if bool_decide (id t = task_id)
                then mkTask (id t) (title t) (negb (completed t))
                else t) tasks.

Definition mock_tasks : list Task :=
  [ mkTask 1 "Review morning emails" false;
    mkTask 2 "Daily planning session" false;
    mkTask 3 "Team standup meeting" false ].

(** The body of the [setTimeout] callback. *)
Definition loaded (st : State) : State :=
  mkState "Good morning! Here's your day ahead..." mock_tasks false.

Record Props : Type := mkProps {
  isLoaded : bool;
  user : option User
}.

(** [if (!isLoaded || loading)]: the skeleton is rendered instead of the page. *)
Definition skeleton (p : Props) (st : State) : bool := negb (isLoaded p) || loading st.

(** [user?.firstName || 'there'] *)
Definition greeting_name (p : Props) : string :=
  Web.or_else (user p ≫= firstName) "there".

(** What the page shows: the name greeted, the number under "Today's
    Tasks", the briefing, and per task its title and whether it is struck
    through. *)
Inductive View : Type :=
| Skeleton
| Page (name : string) (count : nat) (text : string) (rows : list (string * bool)).

Definition render (p : Props) (st : State) : View :=
  if skeleton p st then Skeleton
  else Page (greeting_name p) (length (tasks st)) (briefing st)
            (map (fun t => (title t, completed t)) (tasks st)).

(** The component with its props and the timers its effect has set and
    that have not fired. *)
Record Component : Type := mkComponent {
  props : Props;
  state : State;
  pending : nat
}.

(** What can happen to a mounted component.  When React runs the effect
    is left open: [effect] may occur at any time, which covers every
    schedule React follows for the dependencies [isLoaded] and [user]. *)
Inductive Happening : Type :=
| rerender (p : Props)
| effect
| timeout
| check (task_id : Z).

Definition step (c : Component) (e : Happening) : Component :=
  match e with
  | rerender p => mkComponent p (state c) (pending c)
  | effect =>
      if isLoaded (props c) && bool_decide (is_Some (user (props c)))
      then mkComponent (props c) (state c) (S (pending c))
      else c
  | timeout =>
      match pending c with
      | O => c
      | S n => mkComponent (props c) (loaded (state c)) n
      end
  | check task_id =>
      if skeleton (props c) (state c) then c
      else mkComponent (props c)
             (mkState (briefing (state c)) (toggle task_id (tasks (state c)))
                (loading (state c)))
             (pending c)
  end.

Definition mount (p : Props) : Component := mkComponent p initial 0.

Definition lifetime (p : Props) (es : list Happening) : Component :=
  foldl step (mount p) es.

(** A user was present, with Clerk loaded, at some render. *)
Definition signed_in_props (p : Props) : bool :=
  isLoaded p && bool_decide (is_Some (user p)).

Definition props_of (e : Happening) : option Props :=
  match e with
  | rerender p => Some p
  | _ => None
  end.

(** What every reachable state satisfies: still loading with nothing to
    show, or loaded with the three mock tasks in order, ticked or not. *)
Definition settled (st : State) : Prop :=
  (loading st = true /\ tasks st = [] /\ briefing st = "")
  \/ (loading st = false
      /\ map id (tasks st) = [1; 2; 3]
      /\ map title (tasks st) = map title mock_tasks
      /\ briefing st = "Good morning! Here's your day ahead...").

End Dashboard.

(** The error banner of [AppView] and what the view shows of the app. *)
Module AppView.

Inductive InteractionMode : Type := textMode | voiceMode.

(** What [AppView] reads of Clerk, the view model, the chat view model
    and its own state; [visionOS] is the platform it was compiled for. *)
Record Inputs (E : Type) : Type := mkInputs {
  signed_in : bool;
  isInteractive : bool;
  interactionMode : InteractionMode;
  reconnecting : bool;
  keyboardFocus : bool;
  statusMessage : option string;
  messages_isEmpty : bool;
  isCameraEnabled : bool;
  isScreenShareEnabled : bool;
  error : option E;
  visionOS : bool
}.
Arguments mkInputs {E} signed_in isInteractive interactionMode reconnecting keyboardFocus
  statusMessage messages_isEmpty isCameraEnabled isScreenShareEnabled error visionOS.
Arguments signed_in {E} i.
Arguments isInteractive {E} i.
Arguments interactionMode {E} i.
Arguments reconnecting {E} i.
Arguments keyboardFocus {E} i.
Arguments statusMessage {E} i.
Arguments messages_isEmpty {E} i.
Arguments isCameraEnabled {E} i.
Arguments isScreenShareEnabled {E} i.
Arguments error {E} i.
Arguments visionOS {E} i.

(** [errorHandler = { error = $0 }] and the dismiss closures
    [{ self.error = nil }]. *)
Inductive ErrorEvent (E : Type) : Type :=
| report (e : E)
| dismiss.
Arguments report {E} e.
Arguments dismiss {E}.

Definition on_error {E} (st : option E) (ev : ErrorEvent E) : option E :=
  match ev with
  | report e => Some e
  | dismiss => None
  end.

(** [@State private var error: Error?] starts out nil. *)
Definition error_after {E} (evs : list (ErrorEvent E)) : option E :=
  foldl on_error None evs.

(** The main area; the flag says whether [AgentListeningView] is overlaid. *)
Inductive Main : Type :=
| StartView
| VisionInteractionView (listening : bool)
| TextInteractionView
| VoiceInteractionView (listening : bool).

Record Content (E : Type) : Type := mkContent {
  main : Main;
  warningView : bool;
  errorView : option E;
  warningAlert : bool;
  errorAlert : option E;
  statusOverlay : option string;
  controlBar : bool
}.
Arguments mkContent {E} main warningView errorView warningAlert errorAlert statusOverlay
  controlBar.
Arguments main {E} c.
Arguments warningView {E} c.
Arguments errorView {E} c.
Arguments warningAlert {E} c.
Arguments errorAlert {E} c.
Arguments statusOverlay {E} c.
Arguments controlBar {E} c.

Inductive View (E : Type) : Type :=
| SignIn
| SignedIn (c : Content E).
Arguments SignIn {E}.
Arguments SignedIn {E} c.

Definition agentListening {E} (i : Inputs E) : bool :=
  messages_isEmpty i && negb (isCameraEnabled i) && negb (isScreenShareEnabled i).

Definition interactions {E} (i : Inputs E) : Main :=
  if visionOS i then VisionInteractionView (agentListening i)
  else match interactionMode i with
       | textMode => TextInteractionView
       | voiceMode => VoiceInteractionView (agentListening i)
       end.

(** [content()] with [errors()]: the banners are compiled out on visionOS,
    where alerts stand in for them and the control bar is an ornament. *)
Definition content {E} (i : Inputs E) : Content E :=
  mkContent
    (if isInteractive i then interactions i else StartView)
    (negb (visionOS i) && reconnecting i)
    (if visionOS i then None else error i)
    (visionOS i && reconnecting i)
    (if visionOS i then error i else None)
    (statusMessage i)
    (isInteractive i && (visionOS i || negb (keyboardFocus i))).

(** [body]: [if clerk.user != nil { content() ... } else { Button("Sign in") }] *)
Definition body {E} (i : Inputs E) : View E :=
  if signed_in i then SignedIn (content i) else SignIn.

(** The error a view puts before the user, as a banner or as an alert. *)
Definition error_shown {E} (v : View E) : list E :=
  match v with
  | SignIn => []
  | SignedIn c => option_list (errorView c) ++ option_list (errorAlert c)
  end.

End AppView.

(** [AgentFeatures], the option set of [VoiceAgentApp.swift]. *)
Module AgentFeatures.

Inductive Feature : Type := voice | text | video.

#[global] Instance Feature_eq_dec : EqDecision Feature.
Proof. solve_decision. Defined.

(** [Self(rawValue: 1 << n)] *)
Definition rawValue (f : Feature) : Z :=
  match f with
  | voice => Z.shiftl 1 0
  | text => Z.shiftl 1 1
  | video => Z.shiftl 1 2
  end.

(** An option set is its raw value; an array literal is the union of its
    elements, and [contains] tests that the intersection is the member. *)
Definition union (a b : Z) : Z := Z.lor a b.
Definition contains (s member : Z) : bool := Z.land s member =? member.
Definition of_list (fs : list Feature) : Z := foldr (fun f s => union (rawValue f) s) 0 fs.

Definition current : Z := of_list [voice; text].

End AgentFeatures.

(** More of [TokenService]: prefixes, and the JSON object a
    [BackendResponse] is written as by its [Codable] conformance. *)
Module IOSCoding.
Import IOS.

Definition hasPrefix_char (c : Ascii.ascii) (s : string) : bool :=
  match s with
  | EmptyString => false
  | String a _ => bool_decide (a = c)
  end.

Definition json_of_BackendResponse (br : BackendResponse) : JSON :=
  JObject
    (<["session_id" := JString (session_id br)]>
       (<["room_name" := JString (room_name br)]>
          (<["livekit_token" := JString (livekit_token br)]>
             (<["livekit_url" := JString (livekit_url br)]>
                (<["agent_type" := JString (agent_type br)]>
                   (<["user_id" := JString (user_id br)]> ∅)))))).

(** The coding keys in declaration order, the order [init(from:)] reads them. *)
Definition coding_keys : list string :=
  ["session_id"; "room_name"; "livekit_token"; "livekit_url"; "agent_type"; "user_id"].

(** Observations of the Clerk calls of a trace. *)
Definition session_of (ev : Event Call) : option (option ClerkSession) :=
  match ev with
  | Ev _ c a =>
      match c in Call X return X -> option (option ClerkSession) with
      | Clerk_shared_session => fun a => Some a
      | _ => fun _ => None
      end a
  end.

Definition resource_of (ev : Event Call) : option (Throws (option TokenResource)) :=
  match ev with
  | Ev _ c a =>
      match c in Call X return X -> option (Throws (option TokenResource)) with
      | session_getToken _ => fun a => Some a
      | _ => fun _ => None
      end a
  end.

Definition kvc_of (ev : Event Call) : option (string * option string) :=
  match ev with
  | Ev _ c a =>
      match c in Call X return X -> option (string * option string) with
      | value_forKey _ key => fun a => Some (key, a)
      | _ => fun _ => None
      end a
  end.

Definition sessions (tr : list (Event Call)) : list (option ClerkSession) := omap session_of tr.
Definition resources (tr : list (Event Call)) : list (Throws (option TokenResource)) :=
  omap resource_of tr.
Definition kvc_reads (tr : list (Event Call)) : list (string * option string) :=
  omap kvc_of tr.

(** What the Clerk calls of a run say of the token step.  It failed: there
    was no session (and nothing more was asked), or [getToken] threw, or
    the token resource had no [jwt] and the key-value read of [token] gave
    nothing.  It obtained [t]: [t] is the [jwt] of the token resource, or,
    that lacking, what the key-value read of [token] gave. *)
Definition token_failed (clerk : list (Event Call)) : Prop :=
  (sessions clerk = [None] /\ resources clerk = [] /\ kvc_reads clerk = [])
  \/ (exists s e,
        sessions clerk = [Some s] /\ resources clerk = [Thrown e] /\ kvc_reads clerk = [])
  \/ (exists s res,
        sessions clerk = [Some s] /\ resources clerk = [Returned res]
        /\ res ≫= jwt = None /\ kvc_reads clerk = [("token", None)]).

Definition token_obtained (clerk : list (Event Call)) (t : string) : Prop :=
  exists s res,
    sessions clerk = [Some s] /\ resources clerk = [Returned res]
    /\ ((res ≫= jwt = Some t /\ kvc_reads clerk = [])
        \/ (res ≫= jwt = None /\ kvc_reads clerk = [("token", Some t)])).

End IOSCoding.

(** * Running programs *)

(** Case analysis on the next answer of the environment [h]. *)
Ltac ask h :=
  match goal with
  | |- context [h ?X ?c ?w] =>
      let a := fresh "a" in
      let w' := fresh "w" in
      destruct (h X c w) as [a w'] eqn:?; cbn [fst snd]
  end.

Module FreeFacts.
Section Laws.
Context {E : Type -> Type} {W : Type} (h : forall X, E X -> W -> X * W).

Lemma run_bind {A B : Type} (p : Prog E A) (f : A -> Prog E B) (w : W) :
  run h (bind p f) w =
  (trace h p w ++ trace h (f (result h p w)) (world_after h p w),
   result h (f (result h p w)) (world_after h p w),
   world_after h (f (result h p w)) (world_after h p w)).
Proof.
  unfold trace, result, world_after.
  revert w; induction p as [a | X e k IH]; intros w; cbn [bind run fst snd].
  - by destruct (run h (f a) w) as [[tr r] w'].
  - by rewrite IH.
Qed.

Lemma trace_bind {A B : Type} (p : Prog E A) (f : A -> Prog E B) (w : W) :
  trace h (bind p f) w = trace h p w ++ trace h (f (result h p w)) (world_after h p w).
Proof. unfold trace at 1. by rewrite run_bind. Qed.

Lemma result_bind {A B : Type} (p : Prog E A) (f : A -> Prog E B) (w : W) :
  result h (bind p f) w = result h (f (result h p w)) (world_after h p w).
Proof. unfold result at 1. by rewrite run_bind. Qed.

Lemma world_after_bind {A B : Type} (p : Prog E A) (f : A -> Prog E B) (w : W) :
  world_after h (bind p f) w = world_after h (f (result h p w)) (world_after h p w).
Proof. unfold world_after at 1. by rewrite run_bind. Qed.
End Laws.
End FreeFacts.

(** * Properties of the web client *)

Module WebFacts.
Import Web.

Section WithEnvironment.
Context {W : Type} (h : forall X, Call X -> W -> X * W).
Variable V : option string.

(** Every run of [testApi] follows one of the seven paths, whatever the
    environment answers. *)
Lemma testApi_paths (ep : string) (w : W) :
  exists p, feasible p = true
            /\ trace h (testApi V ep) w = events V ep p
            /\ result h (testApi V ep) w = outcome p.
Proof.
  unfold trace, result, testApi, try_finally, try_catch, and_then, perform,
    await, await_fetch, pure, throw, call, new_Error.
  cbn [bind run fst snd read_message].
  ask h. destruct a. ask h. destruct a. ask h.
  destruct a as [[token|]|e]; cbn [bind run fst snd read_message].
  - destruct (truthy token) eqn:Ht; cbn [negb bind run fst snd read_message].
    + ask h. destruct a as [r|e]; cbn [bind run fst snd read_message].
      * destruct (ok r) eqn:Hok; cbn [negb bind run fst snd read_message].
        -- ask h. destruct a as [d|e]; cbn [bind run fst snd read_message].
           ++ ask h. destruct a. ask h. destruct a.
              exists (Parsed token r d). cbn. rewrite Ht, Hok. done.
           ++ ask h. destruct a. ask h. destruct a.
              exists (JsonRejected token r e). cbn. rewrite Ht, Hok. done.
        -- ask h. destruct a as [t|e]; cbn [bind run fst snd read_message].
           ++ ask h. destruct a. ask h. destruct a.
              exists (HttpError token r t). cbn. rewrite Ht, Hok. done.
           ++ ask h. destruct a. ask h. destruct a.
              exists (TextRejected token r e). cbn. rewrite Ht, Hok. done.
      * ask h. destruct a. ask h. destruct a.
        exists (FetchRejected token e). cbn. rewrite Ht. done.
    + ask h. destruct a. ask h. destruct a.
      exists (NoToken (Some token)). cbn. rewrite Ht. done.
  - ask h. destruct a. ask h. destruct a.
    exists (NoToken None). done.
  - destruct e as [| |e]; cbn [bind run fst snd read_message].
    + ask h. destruct a. by exists (TokenRejected null).
    + ask h. destruct a. by exists (TokenRejected undefined).
    + ask h. destruct a. ask h. destruct a. by exists (TokenRejected (object e)).
Qed.

Lemma truthy_nonempty (s : string) : truthy s = true -> s <> "".
Proof. intros Ht ->. discriminate Ht. Qed.

Lemma or_else_nonempty (a : option string) (b : string) : b <> "" -> or_else a b <> "".
Proof.
  intros Hb. unfold or_else. destruct a as [s|]; [|done].
  destruct (truthy s) eqn:Ht; [by apply truthy_nonempty | done].
Qed.

Lemma apply_trace_endpoint (tr : list (Event Call)) (st : State) :
  endpoint (apply_trace tr st) = endpoint st.
Proof.
  revert st; induction tr as [|[X c a] tr IH]; intros st; [done|].
  change (apply_trace (Ev X c a :: tr) st)
    with (apply_trace tr (apply_event st (Ev X c a))).
  rewrite IH. by destruct c.
Qed.

Local Arguments or_else : simpl never.
Local Arguments pretty : simpl never.
Local Arguments String.append : simpl never.

(** C9, in the form that holds: every invocation of [testApi] ends with
    [loading] back to false.  Unless a promise it awaited rejected with
    [null] or [undefined], it does not throw to its caller and leaves a
    non-null [response]; [success] is true exactly when Clerk gave a
    token, the response received had a 2xx status and its body parsed as
    JSON; otherwise [success] is false and the error message is
    non-empty, being the caught error's message, or 'Unknown error
    occurred' when that error has none. *)
Theorem testApi_never_throws (ep : string) (w : W) (st0 : State) :
  loading (apply_trace (trace h (testApi V ep) w) st0) = false
  /\ (existsb nullish (rejections (trace h (testApi V ep) w)) = false ->
      result h (testApi V ep) w = Returned tt
      /\ exists r,
           response (apply_trace (trace h (testApi V ep) w) st0) = Some r
           /\ (success r = true <->
               exists token res d,
                 tokens (trace h (testApi V ep) w) = [Some token]
                 /\ received (trace h (testApi V ep) w) = [res]
                 /\ is_2xx (status res) = true
                 /\ parsed_bodies (trace h (testApi V ep) w) = [d])
           /\ (success r = false ->
               exists msg,
                 error r = Some msg /\ msg <> ""
                 /\ (forall e, rejections (trace h (testApi V ep) w) = [object e] ->
                       msg = or_else (message e) "Unknown error occurred"
                       /\ (message e = None -> msg = "Unknown error occurred")))).
Proof.
  destruct (testApi_paths ep w) as (p & Hf & -> & ->).
  split.
  { destruct p as [[| |e]| | | | | |]; done. }
  destruct p as [[| |e]| | | | | |]; cbn in Hf |- *; intros Hnull; try discriminate Hnull.
  all: split; [done|]; eexists; (split; [reflexivity|]); cbn.
  all: split.
  all: try (split; [congruence | intros (? & ? & ? & ? & ? & ? & ?); congruence]).
  all: try congruence.
  all: try (intros _; eexists; split; [reflexivity|]; split;
            [ by apply or_else_nonempty
            | intros e' He; first [ discriminate He
                                  | injection He as <-; split; [done | by intros ->] ] ]).
  split; [intros _ | done].
  apply andb_true_iff in Hf as [_ Hok]. by exists token, r, d.
Qed.

Lemma failure_message_http (r : Response) (errorText : string) :
  or_else (Some ("HTTP " +:+ pretty (status r) +:+ ": " +:+ errorText))
    "Unknown error occurred"
  = "HTTP " +:+ pretty (status r) +:+ ": " +:+ errorText.
Proof. reflexivity. Qed.

(** A run issues no [fetch], or exactly one, built from the token Clerk
    returned. *)
Lemma testApi_fetches (ep : string) (w : W) :
  fetches (trace h (testApi V ep) w) = []
  \/ exists token,
       tokens (trace h (testApi V ep) w) = [Some token]
       /\ fetches (trace h (testApi V ep) w)
          = [(apiBaseUrl V +:+ ep, mkInit "GET" (request_headers token))].
Proof.
  destruct (testApi_paths ep w) as (p & _ & -> & _).
  destruct p as [[| |e]| | | | | |]; cbn; first [by left | right; by eexists].
Qed.

Lemma testApi_fetch_at_most_once (ep : string) (w : W) :
  (length (fetches (trace h (testApi V ep) w)) <= 1)%nat.
Proof.
  destruct (testApi_fetches ep w) as [-> | (token & _ & ->)]; cbn; lia.
Qed.

(** A non-2xx response or a failed [fetch] ends in exactly one error
    shown, after exactly one request. *)
Lemma testApi_failure_surfaced (ep : string) (w : W) (st0 : State) :
  (exists res, res ∈ received (trace h (testApi V ep) w) /\ is_2xx (status res) = false)
  \/ (exists e, e ∈ transport_failures (trace h (testApi V ep) w)) ->
  exists msg,
    shown (trace h (testApi V ep) w) = [mkApiResponse false None (Some msg)]
    /\ msg <> ""
    /\ render (apply_trace (trace h (testApi V ep) w) st0) = ErrorPanel (Some msg)
    /\ length (fetches (trace h (testApi V ep) w)) = 1%nat.
Proof.
  destruct (testApi_paths ep w) as (p & Hf & -> & _).
  intros [(res & Hin & Hs) | (e' & Hin)]; destruct p as [[| |e]| | | | | |]; cbn in Hin, Hf;
    try (by apply elem_of_nil in Hin);
    apply list_elem_of_singleton in Hin as ->.
  all: try (apply andb_true_iff in Hf as [_ Hok]; unfold ok in Hok; congruence).
  all: eexists; cbn; (split; [reflexivity|]); split; [by apply or_else_nonempty | done].
Qed.


(** *** The selector *)

Lemma act_invariant (c : Config W) (a : Action) :
  selector_invariant V c -> selector_invariant V (act h V c a).
Proof.
  intros [Hep Hlog]. destruct a as [i|]; unfold act.
  - destruct (options !! i) as [value|] eqn:Hi; [|done].
    split; [|done]. by apply list_elem_of_lookup_2 in Hi.
  - destruct (loading (view c)); [done|]. split.
    + cbn [view]. by rewrite apply_trace_endpoint.
    + cbn [log]. unfold fetches. rewrite omap_app. apply Forall_app. split; [done|].
      fold (trace h (testApi V (endpoint (view c))) (world c)).
      fold (fetches (trace h (testApi V (endpoint (view c))) (world c))).
      destruct (testApi_fetches (endpoint (view c)) (world c))
        as [-> | (token & _ & ->)]; [done|].
      apply Forall_singleton. by exists (endpoint (view c)), token.
Qed.

Lemma interact_invariant (actions : list Action) (w : W) :
  selector_invariant V (interact h V actions w).
Proof.
  unfold interact. induction actions as [|a actions IH] using rev_ind.
  - split; [|done]. cbn. apply elem_of_cons. by left.
  - rewrite foldl_snoc. by apply act_invariant.
Qed.

(** C4: every request [testApi] sends is a GET to the base URL
    followed by the endpoint, carrying [Authorization: Bearer <token>]
    for the token Clerk returned; the selector offers exactly the five
    paths, and whatever the user does the selected endpoint, and so
    every request of the component, is one of them. *)
Theorem testApi_request_shape (w : W) :
  (forall ep,
     fetches (trace h (testApi V ep) w) = []
     \/ exists token init,
          tokens (trace h (testApi V ep) w) = [Some token]
          /\ fetches (trace h (testApi V ep) w) = [(apiBaseUrl V +:+ ep, init)]
          /\ method init = "GET"
          /\ headers init !! "Authorization" = Some ("Bearer " +:+ token))
  /\ options
     = ["/user/test-auth"; "/user/me"; "/user/tasks"; "/user/briefings"; "/user/sessions"]
  /\ (forall actions, endpoint (view (interact h V actions w)) ∈ options)
  /\ (forall i p, options !! i = Some p ->
                  endpoint (view (interact h V [change i] w)) = p)
  /\ (forall actions,
        Forall (fun f => exists p token,
                    p ∈ options /\ f.1 = apiBaseUrl V +:+ p /\ method f.2 = "GET"
                    /\ headers f.2 !! "Authorization" = Some ("Bearer " +:+ token))
               (fetches (log (interact h V actions w)))).
Proof.
  split; [|split; [done|split; [|split]]].
  - intros ep. destruct (testApi_fetches ep w) as [-> | (token & Ht & Hfe)]; [by left|].
    right. exists token, (mkInit "GET" (request_headers token)). done.
  - intros actions. apply interact_invariant.
  - intros i p Hi. unfold interact. cbn [foldl]. unfold act. by rewrite Hi.
  - intros actions. destruct (interact_invariant actions w) as [_ Hlog].
    eapply Forall_impl; [exact Hlog|].
    intros f (p & token & Hp & ->). by exists p, token.
Qed.
End WithEnvironment.

Import Scenarios.


(** C9 does not hold when Clerk's [getToken] rejects with [null]: reading
    [error.message] in the [catch] block throws, so [testApi] throws to
    its caller and leaves [response] cleared, with no result shown. *)
Lemma testApi_throws_on_null_rejection :
  result (scripted clerk_rejects_null) (testApi None "/user/me") tt
  = Thrown (object (TypeError "null"))
  /\ shown (trace (scripted clerk_rejects_null) (testApi None "/user/me") tt) = []
  /\ response (apply_trace (trace (scripted clerk_rejects_null) (testApi None "/user/me") tt)
                 initial) = None.
Proof. by vm_compute. Qed.

Lemma testApi_never_throws_witness :
  loading (apply_trace (trace (scripted not_found) (testApi None "/user/me") tt) initial)
  = false
  /\ result (scripted not_found) (testApi None "/user/me") tt = Returned tt.
Proof.
  destruct (testApi_never_throws (scripted not_found) None "/user/me" tt initial)
    as [Hloading Hrest].
  split; [exact Hloading|].
  destruct Hrest as [Hresult _]; [reflexivity | exact Hresult].
Defined.


(** The scenarios, evaluated. *)
Example testApi_not_found :
  shown (trace (scripted not_found) (testApi None "/user/me") tt)
  = [mkApiResponse false None (Some "HTTP 404: Not Found")]
  /\ fetches (trace (scripted not_found) (testApi None "/user/me") tt)
     = [("http://localhost:8000/user/me", mkInit "GET" (request_headers "jwt"))].
Proof. by vm_compute. Qed.

Example testApi_offline :
  render (apply_trace (trace (scripted offline) (testApi (Some "https://api.zeno.test")
                                                   "/user/tasks") tt) initial)
  = ErrorPanel (Some "Failed to fetch").
Proof. by vm_compute. Qed.
End WebFacts.

(** * Properties of the iOS client *)

Module IOSFacts.
Import IOS IOSCoding FreeFacts.

Lemma decode_String_Returned (m : gmap string JSON) (key s : string) :
  decode_String m key = Returned s <-> m !! key = Some (JString s).
Proof.
  unfold decode_String. destruct (m !! key) as [[]|]; split; congruence.
Qed.

Lemma bind_decode_Returned {A B} (r : Outcome DecodingError A)
    (f : A -> Outcome DecodingError B) (b : B) :
  bind_decode r f = Returned b <-> exists a, r = Returned a /\ f a = Returned b.
Proof.
  destruct r as [a|e]; cbn; split.
  - intros H. by exists a.
  - by intros (a' & [= ->] & H).
  - discriminate.
  - by intros (a' & [=] & _).
Qed.

(** Decoding succeeds exactly on a JSON object that has all six keys,
    each bound to a string. *)
Lemma decode_BackendResponse_Returned (d : Data) (br : BackendResponse) :
  decode_BackendResponse d = Returned br <->
  exists m,
    parsed d = Some (JObject m)
    /\ m !! "session_id" = Some (JString (session_id br))
    /\ m !! "room_name" = Some (JString (room_name br))
    /\ m !! "livekit_token" = Some (JString (livekit_token br))
    /\ m !! "livekit_url" = Some (JString (livekit_url br))
    /\ m !! "agent_type" = Some (JString (agent_type br))
    /\ m !! "user_id" = Some (JString (user_id br)).
Proof.
  unfold decode_BackendResponse. split.
  - destruct (parsed d) as [[| | | | |m]|]; try discriminate.
    intros H. exists m. split; [done|].
    repeat (apply bind_decode_Returned in H as (? & ?%decode_String_Returned & H)).
    injection H as <-. done.
  - intros (m & -> & H1 & H2 & H3 & H4 & H5 & H6).
    apply decode_String_Returned in H1, H2, H3, H4, H5, H6.
    rewrite H1, H2, H3, H4, H5, H6. cbn. by destruct br.
Qed.

Section WithEnvironment.
Context {W : Type} (h : forall X, Call X -> W -> X * W).
Variable P : option string.

(** Obtaining the token talks to Clerk only. *)
Lemma getClerkSessionToken_no_request (w : W) :
  posts (trace h (getClerkSessionToken) w) = []
  /\ answers (trace h (getClerkSessionToken) w) = [].
Proof.
  unfold trace, getClerkSessionToken, call. cbn [bind run fst snd].
  ask h. destruct a as [session|]; cbn [bind run fst snd]; [|done].
  ask h. destruct a as [tokenResource|e]; cbn [bind run fst snd]; [|done].
  destruct (tokenResource ≫= jwt); cbn [bind run fst snd]; [done|].
  ask h. by destruct a.
Qed.

(** Obtaining the token starts by asking Clerk for the current session. *)
Lemma getClerkSessionToken_asks_Clerk (w : W) :
  exists session rest,
    trace h getClerkSessionToken w = Ev _ Clerk_shared_session session :: rest.
Proof.
  unfold trace, getClerkSessionToken, call. cbn [bind run fst snd]. by eexists _, _.
Qed.

(** The backend call is one request, and its outcome is decided by the
    answer to that request. *)
Lemma fetchConnectionDetailsFromBackend_run (clerkToken : string) (w : W) :
  exists answer,
    trace h (fetchConnectionDetailsFromBackend P clerkToken) w
    = [Ev _ (URLSession_shared_data (the_request P clerkToken)) answer]
    /\ result h (fetchConnectionDetailsFromBackend P clerkToken) w = settle answer.
Proof.
  unfold trace, result, fetchConnectionDetailsFromBackend, and_then, await, call.
  cbn [bind run fst snd]. ask h. exists a. by destruct a.
Qed.

Lemma fetchConnectionDetails_run (roomName participantName : string) (w : W) :
  match result h getClerkSessionToken w with
  | None =>
      trace h (fetchConnectionDetails P roomName participantName) w
      = trace h getClerkSessionToken w
      /\ result h (fetchConnectionDetails P roomName participantName) w
         = Thrown (tokenServiceError authenticationFailed)
  | Some clerkToken =>
      exists answer,
        trace h (fetchConnectionDetails P roomName participantName) w
        = trace h getClerkSessionToken w
            ++ [Ev _ (URLSession_shared_data (the_request P clerkToken)) answer]
        /\ result h (fetchConnectionDetails P roomName participantName) w = settle answer
  end.
Proof.
  unfold fetchConnectionDetails. rewrite trace_bind, result_bind.
  destruct (result h getClerkSessionToken w) as [clerkToken|].
  - unfold trace at 2, result at 1, fetchConnectionDetailsFromBackend, and_then,
      await, pure, call.
    cbn [bind run fst snd]. ask h. exists a.
    destruct a as [a|e]; cbn [bind run fst snd settle];
      [destruct (handle_response a.1 a.2)|]; done.
  - split; [|done]. unfold trace at 2. cbn. by rewrite app_nil_r.
Qed.

Lemma handle_response_Returned (data : Data) (response : URLResponse)
    (details : ConnectionDetails) :
  handle_response data response = Returned details <->
  exists status br,
    response = HTTPURLResponse status /\ is_2xx status = true
    /\ decode_BackendResponse data = Returned br
    /\ details = mkConnectionDetails (livekit_url br) (room_name br) "user" (livekit_token br).
Proof.
  unfold handle_response. destruct response as [status|].
  - destruct (is_2xx status) eqn:Hs; cbn [negb].
    + destruct (decode_BackendResponse data) as [br|e] eqn:Hd; split.
      * intros [= <-]. by exists status, br.
      * by intros (? & ? & [= <-] & _ & [= <-] & ->).
      * discriminate.
      * by intros (? & ? & _ & _ & ? & _).
    + split; [discriminate|]. intros (? & ? & [= <-] & ? & _). congruence.
  - split; [discriminate|]. by intros (? & ? & ? & _).
Qed.

Lemma settle_Returned (answer : Throws (Data * URLResponse)) (details : ConnectionDetails) :
  settle answer = Returned details <->
  exists data status br,
    answer = Returned (data, HTTPURLResponse status) /\ is_2xx status = true
    /\ decode_BackendResponse data = Returned br
    /\ details = mkConnectionDetails (livekit_url br) (room_name br) "user" (livekit_token br).
Proof.
  destruct answer as [[data response]|e]; cbn [settle fst snd].
  - rewrite handle_response_Returned. split.
    + intros (status & br & -> & ? & ? & ->). by exists data, status, br.
    + intros (? & status & br & [= <- ->] & ? & ? & ->). by exists status, br.
  - split; [discriminate|]. by intros (? & ? & ? & ? & _).
Qed.

Lemma hasSuffix_char_dropLast (c : Ascii.ascii) (s : string) :
  hasSuffix_char c s = true -> s = dropLast s +:+ String c EmptyString.
Proof.
  induction s as [|a s IH]; [discriminate|]. destruct s as [|b s].
  - cbn. by intros ->%bool_decide_eq_true.
  - intros H.
    change (String a (String b s)
            = String a (dropLast (String b s) +:+ String c EmptyString)).
    f_equal. by apply IH.
Qed.

(** C1: the backend call sends one request: a POST to the base URL
    (less its one trailing slash) followed by /agent/session/create,
    with [Authorization: Bearer <token>] and a JSON object whose keys
    are exactly agent_type, session_type and initial_context.  It
    returns a descriptor exactly when the answer is a 2xx response
    whose body is a JSON object giving all six fields as strings. *)
Theorem backend_request_and_response (clerkToken : string) (w : W) :
  posts (trace h (fetchConnectionDetailsFromBackend P clerkToken) w)
  = [the_request P clerkToken]
  /\ httpMethod (the_request P clerkToken) = "POST"
  /\ url (the_request P clerkToken) = cleanBaseUrl P +:+ "/agent/session/create"
  /\ (apiBaseUrl P = cleanBaseUrl P \/ apiBaseUrl P = cleanBaseUrl P +:+ "/")
  /\ allHTTPHeaderFields (the_request P clerkToken) !! "Authorization"
     = Some ("Bearer " +:+ clerkToken)
  /\ (exists body,
        httpBody (the_request P clerkToken) = Some (JObject body)
        /\ dom body = {[ "agent_type"; "session_type"; "initial_context" ]})
  /\ (forall details,
        result h (fetchConnectionDetailsFromBackend P clerkToken) w = Returned details <->
        exists data status m sid room token lkurl agent uid,
          answers (trace h (fetchConnectionDetailsFromBackend P clerkToken) w)
          = [Returned (data, HTTPURLResponse status)]
          /\ is_2xx status = true
          /\ parsed data = Some (JObject m)
          /\ m !! "session_id" = Some (JString sid)
          /\ m !! "room_name" = Some (JString room)
          /\ m !! "livekit_token" = Some (JString token)
          /\ m !! "livekit_url" = Some (JString lkurl)
          /\ m !! "agent_type" = Some (JString agent)
          /\ m !! "user_id" = Some (JString uid)
          /\ details = mkConnectionDetails lkurl room "user" token).
Proof.
  destruct (fetchConnectionDetailsFromBackend_run clerkToken w) as (answer & -> & ->).
  split; [done|]. split; [done|]. split; [done|]. split.
  { unfold cleanBaseUrl. destruct (hasSuffix_char slash (apiBaseUrl P)) eqn:Hs; [|by left].
    right. by apply hasSuffix_char_dropLast. }
  split; [by vm_compute|]. split.
  { exists request_body. split; [done|]. by vm_compute. }
  intros details. rewrite settle_Returned. cbn [answers omap answer_of].
  split.
  - intros (data & status & br & -> & Hs & Hd & ->).
    apply decode_BackendResponse_Returned in Hd as (m & Hp & H1 & H2 & H3 & H4 & H5 & H6).
    by exists data, status, m, (session_id br), (room_name br), (livekit_token br),
              (livekit_url br), (agent_type br), (user_id br).
  - intros (data & status & m & sid & room & token & lkurl & agent & uid
            & [= ->] & Hs & Hp & H1 & H2 & H3 & H4 & H5 & H6 & ->).
    exists data, status, (mkBackendResponse sid room token lkurl agent uid).
    split; [done|]. split; [done|]. split; [|done].
    apply decode_BackendResponse_Returned. by exists m.
Qed.

Lemma fetchConnectionDetails_posts (roomName participantName : string) (w : W) :
  (posts (trace h (fetchConnectionDetails P roomName participantName) w) = []
   /\ answers (trace h (fetchConnectionDetails P roomName participantName) w) = []
   /\ result h (fetchConnectionDetails P roomName participantName) w
      = Thrown (tokenServiceError authenticationFailed))
  \/ exists clerkToken answer,
       posts (trace h (fetchConnectionDetails P roomName participantName) w)
       = [the_request P clerkToken]
       /\ answers (trace h (fetchConnectionDetails P roomName participantName) w) = [answer]
       /\ result h (fetchConnectionDetails P roomName participantName) w = settle answer.
Proof.
  pose proof (fetchConnectionDetails_run roomName participantName w) as Hrun.
  destruct (getClerkSessionToken_no_request w) as [Hp Ha].
  destruct (result h getClerkSessionToken w) as [clerkToken|].
  - destruct Hrun as (answer & -> & ->). right. exists clerkToken, answer.
    unfold posts, answers in *. rewrite !omap_app, Hp, Ha. done.
  - destruct Hrun as [-> ->]. by left.
Qed.

(** The token step talks to Clerk only, asks for the session once, and
    its result is what the answers of Clerk make it. *)
Lemma getClerkSessionToken_cases (w : W) :
  posts (trace h getClerkSessionToken w) = []
  /\ answers (trace h getClerkSessionToken w) = []
  /\ length (sessions (trace h getClerkSessionToken w)) = 1%nat
  /\ match result h getClerkSessionToken w with
     | None => token_failed (trace h getClerkSessionToken w)
     | Some t => token_obtained (trace h getClerkSessionToken w) t
     end.
Proof.
  unfold trace, result, getClerkSessionToken, call. cbn [bind run fst snd].
  ask h. destruct a as [session|]; cbn [bind run fst snd].
  2: { do 3 (split; [done|]). by left. }
  ask h. destruct a as [tokenResource|e]; cbn [bind run fst snd].
  2: { do 3 (split; [done|]). right; left. by exists session, e. }
  destruct (tokenResource ≫= jwt) as [t|] eqn:Hj; cbn [bind run fst snd].
  - do 3 (split; [done|]). exists session, tokenResource.
    split; [done|]. split; [done|]. by left.
  - ask h. destruct a as [t|]; cbn [bind run fst snd]; do 3 (split; [done|]).
    + exists session, tokenResource. split; [done|]. split; [done|]. by right.
    + right; right. by exists session, tokenResource.
Qed.

(** C3, in the form that holds: a call is up to three steps in order, and
    a failed step ends it.  The token step talks to Clerk only; when it
    fails (no session, [getToken] throws, or no token to be read) the
    call stops there and throws [authenticationFailed], whatever error
    Clerk gave.  With a token exactly one request follows, carrying it; a
    transport error is thrown on unchanged and a non-2xx or non-HTTP
    answer is thrown as a backend error, both without decoding; only a
    2xx answer is decoded, and the call returns or throws as decoding
    does.  Nothing is kept between calls: a second call asks Clerk for
    the session again and its outcome is that of a call made in the
    environment the first one left. *)
Theorem fetchConnectionDetails_three_steps (roomName participantName : string) (w : W) :
  (exists clerk,
     posts clerk = [] /\ answers clerk = []
     /\ ((token_failed clerk
          /\ trace h (fetchConnectionDetails P roomName participantName) w = clerk
          /\ result h (fetchConnectionDetails P roomName participantName) w
             = Thrown (tokenServiceError authenticationFailed))
         \/ exists clerkToken answer,
              token_obtained clerk clerkToken
              /\ trace h (fetchConnectionDetails P roomName participantName) w
                 = clerk ++ [Ev _ (URLSession_shared_data (the_request P clerkToken)) answer]
              /\ match answer with
                 | Thrown e =>
                     result h (fetchConnectionDetails P roomName participantName) w = Thrown e
                 | Returned (data, otherURLResponse) =>
                     result h (fetchConnectionDetails P roomName participantName) w
                     = Thrown (tokenServiceError (backendError "Invalid response"))
                 | Returned (data, HTTPURLResponse status) =>
                     if is_2xx status then
                       result h (fetchConnectionDetails P roomName participantName) w
                       = match decode_BackendResponse data with
                         | Returned br =>
                             Returned (mkConnectionDetails (livekit_url br) (room_name br)
                                         "user" (livekit_token br))
                         | Thrown e => Thrown (decodingError e)
                         end
                     else
                       result h (fetchConnectionDetails P roomName participantName) w
                       = Thrown (tokenServiceError
                                   (backendError
                                      ("HTTP " +:+ pretty status +:+ ": "
                                         +:+ default "Unknown error" (utf8 data))))
                 end))
  /\ length (sessions (trace h (bind (fetchConnectionDetails P roomName participantName)
                                  (fun _ => fetchConnectionDetails P roomName participantName))
                         w)) = 2%nat
  /\ trace h (bind (fetchConnectionDetails P roomName participantName)
                (fun _ => fetchConnectionDetails P roomName participantName)) w
     = trace h (fetchConnectionDetails P roomName participantName) w
         ++ trace h (fetchConnectionDetails P roomName participantName)
              (world_after h (fetchConnectionDetails P roomName participantName) w)
  /\ result h (bind (fetchConnectionDetails P roomName participantName)
                 (fun _ => fetchConnectionDetails P roomName participantName)) w
     = result h (fetchConnectionDetails P roomName participantName)
         (world_after h (fetchConnectionDetails P roomName participantName) w).
Proof.
  assert (Hone : forall w',
             length (sessions (trace h (fetchConnectionDetails P roomName participantName) w'))
             = 1%nat).
  { intros w'.
    pose proof (fetchConnectionDetails_run roomName participantName w') as Hrun.
    destruct (getClerkSessionToken_cases w') as (_ & _ & Hs & _).
    destruct (result h getClerkSessionToken w') as [clerkToken|].
    - destruct Hrun as (answer & -> & _). unfold sessions in *.
      rewrite omap_app, length_app, Hs. done.
    - by destruct Hrun as [-> _]. }
  split; [|split; [|split; [apply trace_bind | apply result_bind]]].
  - exists (trace h getClerkSessionToken w).
    pose proof (fetchConnectionDetails_run roomName participantName w) as Hrun.
    destruct (getClerkSessionToken_cases w) as (Hp & Ha & _ & Hcase).
    split; [done|]. split; [done|].
    destruct (result h getClerkSessionToken w) as [clerkToken|].
    + right. destruct Hrun as (answer & Ht & Hr). exists clerkToken, answer.
      split; [done|]. split; [done|].
      rewrite Hr. destruct answer as [[data [status|]]|e]; cbn; [|done|done].
      by destruct (is_2xx status).
    + left. by destruct Hrun.
  - rewrite trace_bind. unfold sessions in *. rewrite omap_app, length_app, !Hone. done.
Qed.

(** C6: a descriptor returned by [fetchConnectionDetails] is built from
    the backend's answer: [serverUrl] is its livekit_url, [roomName]
    its room_name and [participantToken] its livekit_token. *)
Theorem fetchConnectionDetails_descriptor (roomName' participantName' : string) (w : W)
    (details : ConnectionDetails) :
  result h (fetchConnectionDetails P roomName' participantName') w = Returned details ->
  exists data status m,
    answers (trace h (fetchConnectionDetails P roomName' participantName') w)
    = [Returned (data, HTTPURLResponse status)]
    /\ is_2xx status = true
    /\ parsed data = Some (JObject m)
    /\ m !! "livekit_url" = Some (JString (serverUrl details))
    /\ m !! "room_name" = Some (JString (roomName details))
    /\ m !! "livekit_token" = Some (JString (participantToken details)).
Proof.
  intros Hres.
  destruct (fetchConnectionDetails_posts roomName' participantName' w)
    as [(_ & _ & Hr) | (clerkToken & answer & _ & Ha & Hr)]; [congruence|].
  rewrite Hr in Hres.
  apply settle_Returned in Hres as (data & status & br & -> & Hs & Hd & ->).
  apply decode_BackendResponse_Returned in Hd as (m & Hp & _ & H2 & H3 & H4 & _).
  by exists data, status, m.
Qed.

(** C8: [roomName] and [participantName] have no influence.  Two calls
    that differ only in them run identically against any environment;
    the body sent is always agent_type main_zeno, session_type ios and
    an empty initial_context; a returned descriptor's
    [participantName] is the constant user. *)
Theorem fetchConnectionDetails_ignores_arguments (r1 p1 r2 p2 : string) (w : W) :
  run h (fetchConnectionDetails P r1 p1) w = run h (fetchConnectionDetails P r2 p2) w
  /\ (posts (trace h (fetchConnectionDetails P r1 p1) w) = []
      \/ exists clerkToken,
           posts (trace h (fetchConnectionDetails P r1 p1) w) = [the_request P clerkToken]
           /\ posts (trace h (fetchConnectionDetails P r2 p2) w) = [the_request P clerkToken]
           /\ httpBody (the_request P clerkToken) = Some (JObject request_body))
  /\ request_body !! "agent_type" = Some (JString "main_zeno")
  /\ request_body !! "session_type" = Some (JString "ios")
  /\ request_body !! "initial_context" = Some (JObject ∅)
  /\ dom request_body = {[ "agent_type"; "session_type"; "initial_context" ]}
  /\ (forall details,
        result h (fetchConnectionDetails P r1 p1) w = Returned details ->
        participantName details = "user").
Proof.
  split; [done|]. split.
  { destruct (fetchConnectionDetails_posts r1 p1 w)
      as [(Hp & _) | (clerkToken & answer & Hp & _ & _)]; [by left|].
    right. by exists clerkToken. }
  do 4 (split; [by vm_compute|]).
  intros details Hres.
  destruct (fetchConnectionDetails_posts r1 p1 w)
    as [(_ & _ & Hr) | (clerkToken & answer & _ & _ & Hr)]; [congruence|].
  rewrite Hr in Hres.
  by apply settle_Returned in Hres as (? & ? & ? & _ & _ & _ & ->).
Qed.

(** *** The request URL *)

Lemma without_trailing_id (c : Ascii.ascii) (s : string) :
  hasSuffix_char c s = false -> without_trailing c s = s.
Proof.
  induction s as [|a s IH]; [done|]. destruct s as [|b s].
  - cbn. by intros ->.
  - intros H. change (hasSuffix_char c (String b s) = false) in H.
    change (without_trailing c (String a (String b s)))
      with (match without_trailing c (String b s) with
            | EmptyString =>
                if bool_decide (a = c) then EmptyString else String a EmptyString
            | r => String a r
            end).
    by rewrite IH.
Qed.

Lemma without_trailing_snoc (c : Ascii.ascii) (s : string) :
  without_trailing c (s +:+ String c EmptyString) = without_trailing c s.
Proof.
  induction s as [|a s IH].
  - change ((if bool_decide (c = c) then EmptyString else String c EmptyString)
            = EmptyString).
    by case_bool_decide.
  - change (String a s +:+ String c EmptyString)
      with (String a (s +:+ String c EmptyString)).
    cbn [without_trailing]. by rewrite IH.
Qed.

(** With at most one trailing slash on the base URL, the request URL is
    the base without trailing slashes followed by the path. *)
Lemma request_url_one_trailing_slash (clerkToken : string) :
  hasSuffix_char slash (cleanBaseUrl P) = false ->
  url (the_request P clerkToken)
  = without_trailing slash (apiBaseUrl P) +:+ "/agent/session/create".
Proof.
  intros Hclean. change (url (the_request P clerkToken))
    with (cleanBaseUrl P +:+ "/agent/session/create").
  f_equal. unfold cleanBaseUrl in *.
  destruct (hasSuffix_char slash (apiBaseUrl P)) eqn:Hs.
  - apply hasSuffix_char_dropLast in Hs. rewrite Hs at 2.
    rewrite without_trailing_snoc. by rewrite without_trailing_id.
  - by rewrite without_trailing_id.
Qed.
End WithEnvironment.

Import Scenarios.

Lemma fetchConnectionDetails_descriptor_witness :
  exists data status m,
    answers (trace (scripted session_created) (fetchConnectionDetails None "room" "me") tt)
    = [Returned (data, HTTPURLResponse status)]
    /\ is_2xx status = true
    /\ parsed data = Some (JObject m)
    /\ m !! "livekit_url" = Some (JString "wss://lk.example")
    /\ m !! "room_name" = Some (JString "room-1")
    /\ m !! "livekit_token" = Some (JString "lk-token").
Proof.
  apply (fetchConnectionDetails_descriptor (scripted session_created) None "room" "me" tt
           (mkConnectionDetails "wss://lk.example" "room-1" "user" "lk-token")).
  vm_compute. reflexivity.
Defined.

(** C3 does not hold for the token step: when Clerk fails with an error
    of its own, the call throws [authenticationFailed], whose description
    is fixed; the message of Clerk's error is not passed on. *)
Lemma token_failure_hides_Clerk_error :
  resources (trace (scripted clerk_unreachable) (fetchConnectionDetails None "room" "me") tt)
  = [Thrown (platformError "The network connection was lost.")]
  /\ result (scripted clerk_unreachable) (fetchConnectionDetails None "room" "me") tt
     = Thrown (tokenServiceError authenticationFailed)
  /\ errorDescription authenticationFailed = Some "Failed to authenticate with Clerk".
Proof. by vm_compute. Qed.

Example fetchConnectionDetails_session_created :
  result (scripted session_created) (fetchConnectionDetails None "room" "me") tt
  = Returned (mkConnectionDetails "wss://lk.example" "room-1" "user" "lk-token").
Proof. by vm_compute. Qed.

(** The built-in fallback base URL ends in one slash, which is removed. *)
Lemma request_url_fallback :
  url (the_request None "jwt") = "https://d95f3ba12854.ngrok-free.app/agent/session/create".
Proof. reflexivity. Qed.

(** C10 fails on the code: a base URL configured with two trailing
    slashes loses only one of them, so the request URL has a double slash
    where the path is joined, and is not the base without trailing
    slashes followed by the path. *)
Lemma request_url_double_slash :
  apiBaseUrl (Some "https://api.example.com//") = "https://api.example.com//"
  /\ url (the_request (Some "https://api.example.com//") "jwt")
     = "https://api.example.com//agent/session/create"
  /\ without_trailing slash (apiBaseUrl (Some "https://api.example.com//"))
       +:+ "/agent/session/create"
     = "https://api.example.com/agent/session/create".
Proof. by vm_compute. Qed.
End IOSFacts.

(** * Both clients *)

Module Clients.
Import Scenarios.

Section WithEnvironments.
Context {Ww : Type} (hw : forall X, Web.Call X -> Ww -> X * Ww).
Context {Wi : Type} (hi : forall X, IOS.Call X -> Wi -> X * Wi).
Variable V : option string.
Variable P : option string.

(** C7: one invocation, at most one request.  A run of [testApi]
    contains at most one [fetch], pressing the button adds at most one
    [fetch] to what the component has sent, and a run of
    [fetchConnectionDetails] contains at most one POST. *)
Theorem one_request_per_invocation (ep roomName participantName : string)
    (c : Web.Config Ww) (ww : Ww) (wi : Wi) :
  (length (Web.fetches (trace hw (Web.testApi V ep) ww)) <= 1)%nat
  /\ (length (Web.fetches (Web.log (Web.act hw V c Web.click)))
      <= length (Web.fetches (Web.log c)) + 1)%nat
  /\ (length (IOS.posts (trace hi (IOS.fetchConnectionDetails P roomName participantName) wi))
      <= 1)%nat.
Proof.
  split; [apply WebFacts.testApi_fetch_at_most_once|]. split.
  - unfold Web.act. destruct (Web.loading (Web.view c)); [lia|].
    cbn [Web.log]. unfold Web.fetches. rewrite omap_app, length_app.
    pose proof (WebFacts.testApi_fetch_at_most_once hw V
                  (Web.endpoint (Web.view c)) (Web.world c)) as H.
    unfold Web.fetches, trace in H. lia.
  - destruct (IOSFacts.fetchConnectionDetails_posts hi P roomName participantName wi)
      as [(-> & _) | (? & ? & -> & _)]; cbn; lia.
Qed.

(** C2, in the form that holds: a non-2xx response or a transport failure is
    surfaced once, after a single request.  The web client shows one
    [{success: false, error}]; the iOS backend call throws one error:
    [backendError] carrying the status and body for a non-2xx
    response, and the transport error itself for a transport failure. *)
Theorem failures_surface_once (ep clerkToken : string) (st0 : Web.State)
    (ww : Ww) (wi : Wi) :
  ((exists res, res ∈ Web.received (trace hw (Web.testApi V ep) ww)
                /\ is_2xx (Web.status res) = false)
   \/ (exists e, e ∈ Web.transport_failures (trace hw (Web.testApi V ep) ww)) ->
   exists msg,
     Web.shown (trace hw (Web.testApi V ep) ww) = [Web.mkApiResponse false None (Some msg)]
     /\ msg <> ""
     /\ Web.render (Web.apply_trace (trace hw (Web.testApi V ep) ww) st0)
        = Web.ErrorPanel (Some msg)
     /\ length (Web.fetches (trace hw (Web.testApi V ep) ww)) = 1%nat)
  /\ length (IOS.posts (trace hi (IOS.fetchConnectionDetailsFromBackend P clerkToken) wi))
     = 1%nat
  /\ (forall data status,
        IOS.answers (trace hi (IOS.fetchConnectionDetailsFromBackend P clerkToken) wi)
        = [Returned (data, IOS.HTTPURLResponse status)] ->
        is_2xx status = false ->
        exists msg,
          msg = "HTTP " +:+ pretty status +:+ ": " +:+ default "Unknown error" (IOS.utf8 data)
          /\ result hi (IOS.fetchConnectionDetailsFromBackend P clerkToken) wi
             = Thrown (IOS.tokenServiceError (IOS.backendError msg))
          /\ IOS.errorDescription (IOS.backendError msg) = Some ("Backend error: " +:+ msg))
  /\ (forall e,
        IOS.answers (trace hi (IOS.fetchConnectionDetailsFromBackend P clerkToken) wi)
        = [Thrown e] ->
        result hi (IOS.fetchConnectionDetailsFromBackend P clerkToken) wi = Thrown e).
Proof.
  split; [apply WebFacts.testApi_failure_surfaced|].
  destruct (IOSFacts.fetchConnectionDetailsFromBackend_run hi P clerkToken wi)
    as (answer & -> & ->).
  split; [done|]. split.
  - intros data status [= ->] Hs. eexists. split; [reflexivity|]. cbn. by rewrite Hs.
  - by intros e [= ->].
Qed.
End WithEnvironments.

(** C2 does not hold for transport failures on iOS: when the connection is lost the
    iOS backend call throws the error of [URLSession], which is not a
    [TokenServiceError]. *)
Lemma transport_failure_is_not_TokenServiceError :
  result (IOS.scripted connection_lost) (IOS.fetchConnectionDetailsFromBackend None "jwt") tt
  = Thrown (IOS.platformError "The Internet connection appears to be offline.")
  /\ forall e : IOS.TokenServiceError,
       result (IOS.scripted connection_lost) (IOS.fetchConnectionDetailsFromBackend None "jwt") tt
       <> Thrown (IOS.tokenServiceError e).
Proof. split; [by vm_compute | intros e; vm_compute; discriminate]. Qed.

Example backend_call_server_error :
  result (IOS.scripted server_error) (IOS.fetchConnectionDetailsFromBackend None "jwt") tt
  = Thrown (IOS.tokenServiceError (IOS.backendError "HTTP 500: Internal Server Error"))
  /\ IOS.errorDescription (IOS.backendError "HTTP 500: Internal Server Error")
     = Some "Backend error: HTTP 500: Internal Server Error".
Proof. by vm_compute. Qed.
End Clients.

(** * More properties of the web client *)

Module WebSessionFacts.
Import Web WebSession WebFacts.

Section WithEnvironment.
Context {W : Type} (h : forall X, Call X -> W -> X * W).
Variable V : option string.

Local Arguments or_else : simpl never.
Local Arguments pretty : simpl never.

Lemma nonempty_truthy (s : string) : s <> "" -> truthy s = true.
Proof. intros Hs. unfold truthy. by destruct (String.eqb_spec s ""). Qed.

(** However a run goes, it asks for [loading] false last; it has shown
    one result, which [response] then holds, unless a promise rejected
    with [null] or [undefined]: then it has shown none and [response] is
    left cleared. *)
Lemma testApi_final_state (ep : string) (w : W) (st0 : State) :
  loading (apply_trace (trace h (testApi V ep) w) st0) = false
  /\ ((existsb nullish (rejections (trace h (testApi V ep) w)) = true
       /\ shown (trace h (testApi V ep) w) = []
       /\ response (apply_trace (trace h (testApi V ep) w) st0) = None)
      \/ (existsb nullish (rejections (trace h (testApi V ep) w)) = false
          /\ exists r,
               shown (trace h (testApi V ep) w) = [r]
               /\ response (apply_trace (trace h (testApi V ep) w) st0) = Some r)).
Proof.
  destruct (testApi_paths h V ep w) as (p & _ & -> & _).
  destruct p as [[| |e]| | | | | |]; cbn; (split; [done|]);
    first [by left | right; split; [done|]; by eexists].
Qed.

(** X1: the order of calls in a run of [testApi]: first [setLoading(true)]
    and [setResponse(null)], then only calls to Clerk and the backend, at
    least one, then [setResponse] with a result, once, and
    [setLoading(false)] last.  The result is left out, and [setResponse]
    not called again, exactly when a promise rejected with [null] or
    [undefined]. *)
Theorem testApi_call_order (ep : string) (w : W) :
  exists mid tail,
    trace h (testApi V ep) w
    = [Ev _ (setLoading true) tt; Ev _ (setResponse None) tt]
        ++ mid ++ tail ++ [Ev _ (setLoading false) tt]
    /\ mid <> []
    /\ forallb is_external mid = true
    /\ ((tail = []
         /\ existsb nullish (rejections (trace h (testApi V ep) w)) = true)
        \/ (exists r, tail = [Ev _ (setResponse (Some r)) tt]
                      /\ existsb nullish (rejections (trace h (testApi V ep) w)) = false)).
Proof.
  destruct (testApi_paths h V ep w) as (p & _ & -> & _).
  exists (middle V ep p),
    (match ending p with
     | Returned r => [Ev _ (setResponse (Some r)) tt]
     | Thrown _ => []
     end).
  split; [done|].
  destruct p as [[| |e]| | | | | |]; cbn; (split; [done|]); (split; [done|]);
    first [by left | right; by eexists].
Qed.

(** X2: a request goes out exactly when Clerk returned a non-empty
    token; when Clerk returned null or the empty string, the run shows
    'No auth token available' and nothing was sent. *)
Theorem testApi_fetch_needs_token (ep : string) (w : W) :
  (fetches (trace h (testApi V ep) w) <> [] <->
   exists token, tokens (trace h (testApi V ep) w) = [Some token] /\ token <> "")
  /\ (forall t,
        tokens (trace h (testApi V ep) w) = [t] ->
        t = None \/ t = Some "" ->
        fetches (trace h (testApi V ep) w) = []
        /\ shown (trace h (testApi V ep) w)
           = [mkApiResponse false None (Some "No auth token available")]).
Proof.
  destruct (testApi_paths h V ep w) as (p & Hf & -> & _).
  destruct p as [[| |e]| | | | | |]; cbn in Hf |- *.
  all: try (apply andb_true_iff in Hf as [Hf _]).
  all: split; [split|].
  all: try (intros Hne; first [done | eexists; split; [reflexivity | by apply truthy_nonempty]]).
  all: try (intros (token' & Htok & Hne'); simplify_eq; first [done | idtac];
            apply nonempty_truthy in Hne'; rewrite Hne' in Hf; discriminate Hf).
  all: intros t' Heq Ht; simplify_eq.
  all: destruct Ht; simplify_eq; done.
Qed.

(** X3: for a non-2xx response whose body could be read, the message
    shown is exactly HTTP, the status code, a colon and the body text. *)
Theorem testApi_http_error_message (ep : string) (w : W) (res : Response) (t : string) :
  received (trace h (testApi V ep) w) = [res] ->
  is_2xx (status res) = false ->
  texts (trace h (testApi V ep) w) = [t] ->
  shown (trace h (testApi V ep) w)
  = [mkApiResponse false None (Some ("HTTP " +:+ pretty (status res) +:+ ": " +:+ t))].
Proof.
  destruct (testApi_paths h V ep w) as (p & Hf & -> & _).
  destruct p as [[| |e]| | | | | |]; cbn; intros Hr Hs Ht; simplify_eq. done.
Qed.

(** *** Sessions of user actions *)

Lemma interact_snoc (actions : list Action) (a : Action) (w : W) :
  interact h V (actions ++ [a]) w = act h V (interact h V actions w) a.
Proof. unfold interact. by rewrite foldl_snoc. Qed.

(** Between user actions the button is enabled. *)
Lemma interact_loading (actions : list Action) (w : W) :
  loading (view (interact h V actions w)) = false.
Proof.
  induction actions as [|a actions IH] using rev_ind; [done|].
  rewrite interact_snoc. destruct a as [i|]; unfold act.
  - by destruct (options !! i).
  - rewrite IH. cbn [view]. apply testApi_final_state.
Qed.

Lemma act_click (actions : list Action) (w : W) :
  act h V (interact h V actions w) click
  = mkConfig
      (apply_trace (trace h (testApi V (endpoint (view (interact h V actions w))))
                      (world (interact h V actions w)))
         (view (interact h V actions w)))
      (log (interact h V actions w)
         ++ trace h (testApi V (endpoint (view (interact h V actions w))))
              (world (interact h V actions w)))
      (world_after h (testApi V (endpoint (view (interact h V actions w))))
         (world (interact h V actions w))).
Proof. unfold act. by rewrite interact_loading. Qed.

(** X4: whatever the user does, between actions the button is enabled.
    The result panel is absent before the first press, choosing an
    endpoint leaves it as it is, and after a press it is absent exactly
    when, in the run that press started, a promise rejected with [null]
    or [undefined]. *)
Theorem interact_panel (actions : list Action) (w : W) :
  loading (view (interact h V actions w)) = false
  /\ (existsb is_click actions = false ->
      render (view (interact h V actions w)) = NoPanel)
  /\ (forall i,
        render (view (interact h V (actions ++ [change i]) w))
        = render (view (interact h V actions w)))
  /\ (render (view (interact h V (actions ++ [click]) w)) = NoPanel <->
      existsb nullish
        (rejections (trace h (testApi V (endpoint (view (interact h V actions w))))
                       (world (interact h V actions w)))) = true).
Proof.
  assert (Hchange : forall actions' i,
             render (view (interact h V (actions' ++ [change i]) w))
             = render (view (interact h V actions' w))).
  { intros actions' i. rewrite interact_snoc. unfold act. by destruct (options !! i). }
  split; [apply interact_loading|]. split; [|split; [apply Hchange|]].
  - induction actions as [|a actions IH] using rev_ind; [done|].
    rewrite existsb_app. cbn [existsb]. destruct a as [i|]; cbn [is_click].
    + rewrite !orb_false_r, Hchange. exact IH.
    + by rewrite orb_true_r.
  - rewrite interact_snoc, act_click. cbn [view]. unfold render.
    destruct (testApi_final_state (endpoint (view (interact h V actions w)))
                (world (interact h V actions w)) (view (interact h V actions w)))
      as (_ & [(-> & _ & ->) | (-> & r & _ & ->)]); [done|].
    split; [by destruct (success r) | done].
Qed.

(** X5: choosing an endpoint sends nothing, and the component never
    sends more requests than the button was pressed. *)
Theorem interact_fetches_bounded (actions : list Action) (w : W) :
  (forall i, log (act h V (interact h V actions w) (change i)) = log (interact h V actions w))
  /\ (length (fetches (log (interact h V actions w))) <= length (filter is_click actions))%nat.
Proof.
  split.
  { intros i. unfold act. by destruct (options !! i). }
  induction actions as [|a actions IH] using rev_ind; [done|].
  rewrite interact_snoc, filter_app, length_app. destruct a as [i|].
  - replace (log (act h V (interact h V actions w) (change i)))
      with (log (interact h V actions w)).
    + assert (length (filter (fun a => is_click a) [change i]) = 0%nat) as -> by done.
      lia.
    + unfold act. by destruct (options !! i).
  - rewrite act_click. cbn [log]. unfold fetches in *. rewrite omap_app, length_app.
    pose proof (testApi_fetch_at_most_once h V
                  (endpoint (view (interact h V actions w)))
                  (world (interact h V actions w))) as H1.
    unfold fetches in H1.
    assert (length (filter (fun a => is_click a) [click]) = 1%nat) as -> by done.
    lia.
Qed.

(** X6: the selected endpoint is the option most recently chosen, or
    /user/test-auth when none was; pressing the button sends at most one
    request, to the base URL followed by that endpoint. *)
Theorem interact_requests_selected (actions : list Action) (w : W) :
  endpoint (view (interact h V actions w)) = default "/user/test-auth" (last (choices actions))
  /\ (fetches (log (interact h V (actions ++ [click]) w))
      = fetches (log (interact h V actions w))
      \/ exists token,
           fetches (log (interact h V (actions ++ [click]) w))
           = fetches (log (interact h V actions w))
               ++ [(apiBaseUrl V +:+ default "/user/test-auth" (last (choices actions)),
                    mkInit "GET" (request_headers token))]).
Proof.
  assert (Hep : forall actions',
             endpoint (view (interact h V actions' w))
             = default "/user/test-auth" (last (choices actions'))).
  { induction actions' as [|a actions' IH] using rev_ind; [done|].
    rewrite interact_snoc. unfold choices. rewrite omap_app. destruct a as [i|].
    - unfold act.
      change (omap choice_of [change i])
        with (match options !! i with Some value => [value] | None => [] end).
      destruct (options !! i) as [value|] eqn:Hi.
      + cbn [view setEndpoint endpoint]. by rewrite last_snoc.
      + by rewrite app_nil_r.
    - rewrite act_click. cbn [view]. change (omap choice_of [click]) with (@nil string).
      rewrite app_nil_r. by rewrite apply_trace_endpoint. }
  split; [apply Hep|].
  rewrite interact_snoc, act_click. cbn [log]. unfold fetches at 1 3. rewrite omap_app.
  fold (fetches (log (interact h V actions w))).
  fold (fetches (trace h (testApi V (endpoint (view (interact h V actions w))))
                   (world (interact h V actions w)))).
  destruct (testApi_fetches h V (endpoint (view (interact h V actions w)))
              (world (interact h V actions w))) as [-> | (token & _ & ->)].
  - left. by rewrite app_nil_r.
  - right. exists token. by rewrite Hep.
Qed.
End WithEnvironment.

Import Scenarios.

Lemma testApi_http_error_message_witness :
  shown (trace (scripted not_found) (testApi None "/user/me") tt)
  = [mkApiResponse false None (Some ("HTTP " +:+ pretty 404 +:+ ": " +:+ "Not Found"))].
Proof.
  apply (testApi_http_error_message (scripted not_found) None "/user/me" tt
           (mkResponse 404) "Not Found"); by vm_compute.
Defined.
End WebSessionFacts.

(** * The dashboard *)

Module DashboardFacts.
Import Dashboard.

Lemma toggle_ids (i : Z) (l : list Task) : map id (toggle i l) = map id l.
Proof.
  unfold toggle. rewrite map_map. apply map_ext. intros t. by case_bool_decide.
Qed.

Lemma toggle_titles (i : Z) (l : list Task) : map title (toggle i l) = map title l.
Proof.
  unfold toggle. rewrite map_map. apply map_ext. intros t. by case_bool_decide.
Qed.

(** X7: ticking a task's checkbox twice restores the list; ticking never
    adds, removes, reorders or renames tasks. *)
Theorem toggle_twice (i : Z) (l : list Task) :
  toggle i (toggle i l) = l
  /\ map id (toggle i l) = map id l
  /\ map title (toggle i l) = map title l
  /\ length (toggle i l) = length l.
Proof.
  split; [|split; [apply toggle_ids | split; [apply toggle_titles | apply length_map]]].
  unfold toggle. rewrite map_map. rewrite <- (map_id l) at 2. apply map_ext.
  intros [k t c]. cbn.
  destruct (bool_decide (k = i)) eqn:E; cbn; rewrite E; [by rewrite negb_involutive | done].
Qed.

(** X8: ticking flips [completed] of the tasks with that id and leaves
    every other task as it was; the order of two tickings does not
    matter. *)
Theorem toggle_local (i j : Z) (l : list Task) :
  toggle i (toggle j l) = toggle j (toggle i l)
  /\ (forall k t, l !! k = Some t -> id t <> i -> toggle i l !! k = Some t)
  /\ (forall k t, l !! k = Some t -> id t = i ->
        toggle i l !! k = Some (mkTask (id t) (title t) (negb (completed t)))).
Proof.
  split; [|split].
  - unfold toggle. rewrite !map_map. apply map_ext. intros [k t c]. cbn.
    destruct (bool_decide (k = i)) eqn:Ei; destruct (bool_decide (k = j)) eqn:Ej;
      cbn; rewrite ?Ei, ?Ej; done.
  - intros k t Hk Hi. unfold toggle.
    change (map ?f l !! k) with ((f <$> l) !! k). rewrite list_lookup_fmap, Hk. cbn.
    by rewrite bool_decide_eq_false_2.
  - intros k t Hk Hi. unfold toggle.
    change (map ?f l !! k) with ((f <$> l) !! k). rewrite list_lookup_fmap, Hk. cbn.
    by rewrite bool_decide_eq_true_2.
Qed.

Lemma step_settled (c : Component) (e : Happening) :
  settled (state c) -> settled (state (step c e)).
Proof.
  intros Hc. destruct e as [p| | |i]; cbn.
  - done.
  - by destruct (isLoaded (props c) && bool_decide (is_Some (user (props c)))).
  - destruct (pending c); [done|]. by right.
  - destruct (skeleton (props c) (state c)) eqn:Hs; [done|]. cbn.
    destruct Hc as [(Hl & _) | (Hl & Hi & Ht & Hb)].
    + unfold skeleton in Hs. rewrite Hl, orb_true_r in Hs. discriminate.
    + right. cbn. by rewrite toggle_ids, toggle_titles.
Qed.

Lemma lifetime_snoc (p : Props) (es : list Happening) (e : Happening) :
  lifetime p (es ++ [e]) = step (lifetime p es) e.
Proof. unfold lifetime. by rewrite foldl_snoc. Qed.

(** X9: through re-renders, effects, timers and tickings, the dashboard
    is either still loading with no tasks and no briefing, or loaded with
    exactly the three mock tasks in their order and the mock briefing;
    the page is never rendered before the data is there, and the task
    count it shows is 3. *)
Theorem lifetime_settled (p : Props) (es : list Happening) :
  settled (state (lifetime p es))
  /\ (render (props (lifetime p es)) (state (lifetime p es)) = Skeleton
      \/ exists name rows,
           render (props (lifetime p es)) (state (lifetime p es))
           = Page name 3 "Good morning! Here's your day ahead..." rows
           /\ map fst rows = map title mock_tasks).
Proof.
  assert (Hs : settled (state (lifetime p es))).
  { induction es as [|e es IH] using rev_ind; [by left|].
    rewrite lifetime_snoc. by apply step_settled. }
  split; [done|]. unfold render, skeleton.
  destruct Hs as [(Hl & _) | (Hl & Hi & Ht & Hb)].
  - left. by rewrite Hl, orb_true_r.
  - destruct (isLoaded (props (lifetime p es))); cbn; [|by left].
    rewrite Hl. right. eexists _, _. split.
    + f_equal; [|done]. by rewrite <- (length_map id), Hi.
    + by rewrite map_map.
Qed.

(** X10: as long as no render has Clerk loaded with a user, no timer is
    ever set: the state stays the initial one and the dashboard shows
    the skeleton, whatever else happens. *)
Theorem lifetime_signed_out (p : Props) (es : list Happening) :
  signed_in_props p = false ->
  Forall (fun q => signed_in_props q = false) (omap props_of es) ->
  pending (lifetime p es) = 0%nat
  /\ state (lifetime p es) = initial
  /\ render (props (lifetime p es)) (state (lifetime p es)) = Skeleton.
Proof.
  intros Hp Hes.
  assert (H : pending (lifetime p es) = 0%nat /\ state (lifetime p es) = initial
              /\ signed_in_props (props (lifetime p es)) = false).
  { induction es as [|e es IH] using rev_ind; [done|].
    rewrite lifetime_snoc. rewrite omap_app in Hes. apply Forall_app in Hes as [Hes He].
    destruct (IH Hes) as (Hn & Hst & Hsi). destruct e as [q| | |i]; cbn.
    - cbn in He. rewrite Forall_singleton in He. by split_and!.
    - unfold signed_in_props in Hsi. rewrite Hsi. by split_and!.
    - rewrite Hn. by split_and!.
    - unfold skeleton. rewrite Hst, orb_true_r. by split_and!. }
  destruct H as (Hn & Hst & _). split; [done|]. split; [done|].
  unfold render, skeleton. by rewrite Hst, orb_true_r.
Qed.

Lemma lifetime_signed_out_witness :
  pending (lifetime (mkProps true None) [effect; timeout; check 1; rerender (mkProps false None)])
  = 0%nat
  /\ state (lifetime (mkProps true None)
              [effect; timeout; check 1; rerender (mkProps false None)]) = initial
  /\ render (props (lifetime (mkProps true None)
                      [effect; timeout; check 1; rerender (mkProps false None)]))
       (state (lifetime (mkProps true None)
                 [effect; timeout; check 1; rerender (mkProps false None)])) = Skeleton.
Proof.
  apply (lifetime_signed_out (mkProps true None)
           [effect; timeout; check 1; rerender (mkProps false None)]).
  - reflexivity.
  - repeat constructor.
Defined.
End DashboardFacts.

(** * The app view and the feature flags *)

Module AppViewFacts.
Import AppView.

Section Errors.
Context {E : Type}.

Lemma error_after_snoc (evs : list (ErrorEvent E)) (ev : ErrorEvent E) :
  error_after (evs ++ [ev]) = on_error (error_after evs) ev.
Proof. unfold error_after. by rewrite foldl_snoc. Qed.

(** X11: the error on screen is the one reported last, if it has not
    been dismissed since: a new error replaces the one showing, one
    dismissal clears whatever was reported before.  It is shown once, as
    a banner or (on visionOS) as an alert, and only while signed in. *)
Theorem error_shown_last (evs : list (ErrorEvent E)) :
  error_after evs = match last evs with
                    | Some (report e) => Some e
                    | _ => None
                    end
  /\ (forall i : Inputs E,
        error i = error_after evs ->
        error_shown (body i)
        = if signed_in i then option_list (error_after evs) else []).
Proof.
  split.
  - destruct evs as [|ev evs _] using rev_ind; [done|].
    rewrite error_after_snoc, last_snoc. by destruct ev.
  - intros i <-. unfold body. destruct (signed_in i); [|done].
    cbn. destruct (visionOS i); [done|]. by rewrite app_nil_r.
Qed.
End Errors.
End AppViewFacts.

Module AgentFeaturesFacts.
Import AgentFeatures.

Lemma of_list_range (fs : list Feature) : 0 <= of_list fs < 8.
Proof.
  induction fs as [|f fs IH]; [done|].
  cbn [of_list foldr]. fold (of_list fs). unfold union.
  assert (Hv : of_list fs = 0 \/ of_list fs = 1 \/ of_list fs = 2 \/ of_list fs = 3
               \/ of_list fs = 4 \/ of_list fs = 5 \/ of_list fs = 6 \/ of_list fs = 7) by lia.
  destruct f; destruct Hv as [-> | [-> | [-> | [-> | [-> | [-> | [-> | ->]]]]]]];
    by vm_compute.
Qed.

Lemma contains_cons (f g : Feature) (fs : list Feature) :
  contains (of_list (g :: fs)) (rawValue f)
  = bool_decide (f = g) || contains (of_list fs) (rawValue f).
Proof.
  cbn [of_list foldr]. fold (of_list fs). unfold union.
  pose proof (of_list_range fs) as Hr.
  assert (Hv : of_list fs = 0 \/ of_list fs = 1 \/ of_list fs = 2 \/ of_list fs = 3
               \/ of_list fs = 4 \/ of_list fs = 5 \/ of_list fs = 6 \/ of_list fs = 7) by lia.
  destruct f, g; destruct Hv as [-> | [-> | [-> | [-> | [-> | [-> | [-> | ->]]]]]]];
    by vm_compute.
Qed.

(** X12: the three raw values are independent bits: a set built from any
    list of features contains a feature exactly when the list does; so
    the current set has voice and text and not video. *)
Theorem contains_of_list (f : Feature) (fs : list Feature) :
  (contains (of_list fs) (rawValue f) = true <-> f ∈ fs)
  /\ contains current (rawValue voice) = true
  /\ contains current (rawValue text) = true
  /\ contains current (rawValue video) = false.
Proof.
  split; [|by vm_compute].
  induction fs as [|g fs IH].
  - split; [by destruct f | by intros ?%elem_of_nil].
  - rewrite contains_cons, elem_of_cons, orb_true_iff, IH, bool_decide_eq_true. done.
Qed.
End AgentFeaturesFacts.

(** * More properties of the iOS client *)

Module IOSCodingFacts.
Import IOS IOSCoding IOSFacts FreeFacts.

Section WithEnvironment.
Context {W : Type} (h : forall X, Call X -> W -> X * W).
Variable P : option string.

(** X13: where the Clerk token comes from.  Without a session nothing
    more is asked and the result is nil; an error thrown by [getToken]
    is swallowed into nil; a token resource with a [jwt] gives that
    [jwt] without any key-value read; otherwise the one key-value read
    of [token] decides.  No request is sent along the way. *)
Theorem getClerkSessionToken_sources (w : W) :
  posts (trace h getClerkSessionToken w) = []
  /\ ((sessions (trace h getClerkSessionToken w) = [None]
       /\ resources (trace h getClerkSessionToken w) = []
       /\ kvc_reads (trace h getClerkSessionToken w) = []
       /\ result h getClerkSessionToken w = None)
      \/ exists s,
           sessions (trace h getClerkSessionToken w) = [Some s]
           /\ ((exists e,
                  resources (trace h getClerkSessionToken w) = [Thrown e]
                  /\ kvc_reads (trace h getClerkSessionToken w) = []
                  /\ result h getClerkSessionToken w = None)
               \/ (exists res t,
                     resources (trace h getClerkSessionToken w) = [Returned (Some res)]
                     /\ jwt res = Some t
                     /\ kvc_reads (trace h getClerkSessionToken w) = []
                     /\ result h getClerkSessionToken w = Some t)
               \/ (exists res v,
                     resources (trace h getClerkSessionToken w) = [Returned res]
                     /\ res ≫= jwt = None
                     /\ kvc_reads (trace h getClerkSessionToken w) = [("token", v)]
                     /\ result h getClerkSessionToken w = v))).
Proof.
  split; [apply getClerkSessionToken_no_request|].
  unfold trace, result, getClerkSessionToken, call. cbn [bind run fst snd].
  ask h. destruct a as [session|]; cbn [bind run fst snd]; [|by left].
  right. exists session.
  ask h. destruct a as [tokenResource|e]; cbn [bind run fst snd].
  - destruct (tokenResource ≫= jwt) as [t|] eqn:Hj; cbn [bind run fst snd].
    + split; [done|]. right; left.
      destruct tokenResource as [res|]; [|done]. by exists res, t.
    + ask h. split; [by destruct a|]. right; right.
      exists tokenResource, a. by destruct a.
  - split; [done|]. left. by exists e.
Qed.

(** X20: unless [URLSession] itself throws one, the only
    [TokenServiceError]s a call ends in are the service's own:
    [invalidResponse] is never among them, and [authenticationFailed]
    is thrown exactly when no Clerk token could be obtained. *)
Theorem fetchConnectionDetails_own_errors (roomName participantName : string) (w : W) :
  (forall e, answers (trace h (fetchConnectionDetails P roomName participantName) w)
             <> [Thrown (tokenServiceError e)]) ->
  result h (fetchConnectionDetails P roomName participantName) w
  <> Thrown (tokenServiceError invalidResponse)
  /\ (result h (fetchConnectionDetails P roomName participantName) w
      = Thrown (tokenServiceError authenticationFailed)
      <-> result h getClerkSessionToken w = None).
Proof.
  intros Henv.
  pose proof (fetchConnectionDetails_run h P roomName participantName w) as Hrun.
  destruct (getClerkSessionToken_no_request h w) as [_ Hno].
  destruct (result h getClerkSessionToken w) as [clerkToken|].
  - destruct Hrun as (answer & Ht & Hr). rewrite Hr.
    assert (Ha : forall e, answer <> Thrown (tokenServiceError e)).
    { intros e ->. apply (Henv e). rewrite Ht. unfold answers in *.
      by rewrite omap_app, Hno. }
    clear Henv Ht Hr.
    assert (Hown : forall e, settle answer = Thrown (tokenServiceError e) ->
                             exists msg, e = backendError msg).
    { intros e. destruct answer as [[data [status|]]|e']; cbn.
      - destruct (is_2xx status); cbn.
        + by destruct (decode_BackendResponse data).
        + intros [= <-]. by eexists.
      - intros [= <-]. by eexists.
      - intros [= ->]. by destruct (Ha e). }
    split; [intros [msg [=]]%Hown | split; [intros [msg [=]]%Hown | done]].
  - destruct Hrun as [_ ->]. done.
Qed.
End WithEnvironment.

(** *** Decoding the backend's answer *)

(** X14: decoding reads the six keys in declaration order and stops at
    the first one that is not bound to a string, with that key's error:
    [keyNotFound] when it is absent, [valueNotFound] when it is null. *)
Theorem decode_first_error (u : option string) (m : gmap string JSON)
    (pre post : list string) (k : string) (e : DecodingError) :
  coding_keys = pre ++ k :: post ->
  Forall (fun k' => exists s, m !! k' = Some (JString s)) pre ->
  decode_String m k = Thrown e ->
  decode_BackendResponse (mkData u (Some (JObject m))) = Thrown e
  /\ (m !! k = None -> e = keyNotFound k)
  /\ (m !! k = Some JNull -> e = valueNotFound k).
Proof.
  intros Hkeys Hpre He. split.
  - unfold decode_BackendResponse. cbn [parsed]. unfold coding_keys in Hkeys.
    repeat (destruct pre as [|? pre]; simplify_eq/=);
      repeat match goal with
             | H : Forall _ (_ :: _) |- _ => apply Forall_cons in H as [[? ?%decode_String_Returned] H]
             end;
      repeat match goal with
             | H : decode_String m _ = Returned _ |- _ => rewrite H; cbn [bind_decode]
             end;
      by rewrite ?He.
  - unfold decode_String in He. split; intros Hk; rewrite Hk in He; congruence.
Qed.

(** X15: keys other than the six are ignored by the decoder. *)
Theorem decode_ignores_other_keys (u : option string) (m : gmap string JSON)
    (k : string) (v : JSON) :
  k ∉ coding_keys ->
  decode_BackendResponse (mkData u (Some (JObject (<[k := v]> m))))
  = decode_BackendResponse (mkData u (Some (JObject m))).
Proof.
  intros Hk. unfold decode_BackendResponse, decode_String. cbn [parsed].
  rewrite !lookup_insert_ne; [done|..];
    intros ->; apply Hk; unfold coding_keys; set_solver.
Qed.

(** X16: the JSON object of a [BackendResponse] decodes back to it, and a
    backend answer carrying it becomes, for a 2xx status, the descriptor
    with its URL, room and token, and for any other status an error. *)
Theorem decode_json_of_BackendResponse (u : option string) (br : BackendResponse)
    (status : Z) :
  decode_BackendResponse (mkData u (Some (json_of_BackendResponse br))) = Returned br
  /\ handle_response (mkData u (Some (json_of_BackendResponse br))) (HTTPURLResponse status)
     = if is_2xx status
       then Returned (mkConnectionDetails (livekit_url br) (room_name br) "user"
                        (livekit_token br))
       else Thrown (tokenServiceError
                      (backendError ("HTTP " +:+ pretty status +:+ ": "
                                       +:+ default "Unknown error" u))).
Proof.
  assert (Hd : decode_BackendResponse (mkData u (Some (json_of_BackendResponse br)))
               = Returned br).
  { destruct br. by vm_compute. }
  split; [done|]. unfold handle_response. rewrite Hd.
  by destruct (is_2xx status).
Qed.

(** X17: every [TokenServiceError] has a description, none of them
    empty, and different errors have different descriptions. *)
Theorem errorDescription_distinct (e1 e2 : TokenServiceError) :
  (errorDescription e1 = errorDescription e2 <-> e1 = e2)
  /\ exists s, errorDescription e1 = Some s /\ s <> "".
Proof.
  split.
  - split; [|by intros ->].
    destruct e1 as [|m1|], e2 as [|m2|]; cbn; intros Heq; try done.
    injection Heq as Hm. by rewrite (Hm : m1 = m2).
  - destruct e1; cbn; by eexists.
Qed.

(** *** The base URL *)

Lemma rev_app_hasSuffix (c : Ascii.ascii) (s1 s2 : string) :
  hasSuffix_char c (String.rev_app s1 s2)
  = match s2 with
    | EmptyString => hasPrefix_char c s1
    | _ => hasSuffix_char c s2
    end.
Proof.
  revert s2; induction s1 as [|a s1 IH]; intros s2; [by destruct s2|].
  cbn [String.rev_app]. rewrite IH. by destruct s2.
Qed.

Lemma rev_app_hasPrefix (c : Ascii.ascii) (s1 s2 : string) :
  hasPrefix_char c (String.rev_app s1 s2)
  = match s1 with
    | EmptyString => hasPrefix_char c s2
    | _ => hasSuffix_char c s1
    end.
Proof.
  revert s2; induction s1 as [|a s1 IH]; intros s2; [done|].
  cbn [String.rev_app]. rewrite IH. by destruct s1.
Qed.

Lemma rev_app_rev_app (s1 s2 s3 : string) :
  String.rev_app (String.rev_app s1 s2) s3 = String.rev_app s2 (s1 +:+ s3).
Proof.
  revert s2 s3; induction s1 as [|a s1 IH]; intros s2 s3; [done|].
  cbn [String.rev_app]. by rewrite IH.
Qed.

Lemma append_empty (s : string) : s +:+ "" = s.
Proof.
  induction s as [|a s IH]; [done|].
  change (String a (s +:+ "") = String a s). by rewrite IH.
Qed.

Lemma rev_rev (s : string) : String.rev (String.rev s) = s.
Proof. unfold String.rev. by rewrite rev_app_rev_app, append_empty. Qed.

Lemma drop_leading_hasPrefix (c : Ascii.ascii) (s : string) :
  hasPrefix_char c (drop_leading c s) = false.
Proof.
  induction s as [|a s IH]; [done|]. cbn [drop_leading].
  destruct (bool_decide (a = c)) eqn:E; [done|]. by cbn.
Qed.

Lemma drop_leading_hasSuffix (c : Ascii.ascii) (s : string) :
  hasSuffix_char c s = false -> hasSuffix_char c (drop_leading c s) = false.
Proof.
  induction s as [|a s IH]; [done|]. cbn [drop_leading].
  destruct (bool_decide (a = c)) eqn:E; [|done].
  destruct s as [|b s]; [done|]. exact IH.
Qed.

Lemma drop_leading_id (c : Ascii.ascii) (s : string) :
  hasPrefix_char c s = false -> drop_leading c s = s.
Proof. destruct s as [|a s]; [done|]. cbn. by intros ->. Qed.

(** X18: a base URL taken from Info.plist never begins or ends with a
    double quote, and one that had none at either end is taken as it is. *)
Theorem apiBaseUrl_unquoted (url : string) :
  hasPrefix_char quote (apiBaseUrl (Some url)) = false
  /\ hasSuffix_char quote (apiBaseUrl (Some url)) = false
  /\ (hasPrefix_char quote url = false -> hasSuffix_char quote url = false ->
      apiBaseUrl (Some url) = url).
Proof.
  unfold apiBaseUrl, trimmingCharacters, String.rev. split; [|split].
  - rewrite rev_app_hasPrefix.
    destruct (drop_leading quote (String.rev_app (drop_leading quote url) ""))
      as [|a s] eqn:Hd; [done|].
    rewrite <- Hd. apply drop_leading_hasSuffix.
    rewrite rev_app_hasSuffix. apply drop_leading_hasPrefix.
  - rewrite rev_app_hasSuffix. apply drop_leading_hasPrefix.
  - intros Hp Hs. rewrite (drop_leading_id _ url Hp).
    rewrite drop_leading_id; [apply rev_rev|].
    by rewrite rev_app_hasPrefix; destruct url.
Qed.

Lemma without_trailing_hasSuffix (c : Ascii.ascii) (s : string) :
  hasSuffix_char c (without_trailing c s) = false.
Proof.
  induction s as [|a s IH]; [done|]. cbn [without_trailing].
  destruct (without_trailing c s) as [|b r].
  - destruct (bool_decide (a = c)) eqn:E; [done|]. by cbn.
  - exact IH.
Qed.

(** X19: when what is left of the base URL after removing one trailing
    slash does not end in a slash, the request URL is the base without
    its trailing slash followed by /agent/session/create, with a single
    slash at the join. *)
Theorem request_url_single_slash (P : option string) (clerkToken : string) :
  hasSuffix_char slash (cleanBaseUrl P) = false ->
  url (the_request P clerkToken)
  = without_trailing slash (apiBaseUrl P) +:+ "/agent/session/create"
  /\ hasSuffix_char slash (without_trailing slash (apiBaseUrl P)) = false.
Proof.
  intros Hclean. split; [by apply request_url_one_trailing_slash|].
  apply without_trailing_hasSuffix.
Qed.

Import Scenarios.

Lemma request_url_single_slash_witness :
  url (the_request None "jwt")
  = without_trailing slash (apiBaseUrl None) +:+ "/agent/session/create"
  /\ hasSuffix_char slash (without_trailing slash (apiBaseUrl None)) = false.
Proof. apply (request_url_single_slash None "jwt"). reflexivity. Defined.

Lemma fetchConnectionDetails_own_errors_witness :
  result (scripted server_error) (fetchConnectionDetails None "room" "me") tt
  <> Thrown (tokenServiceError invalidResponse)
  /\ (result (scripted server_error) (fetchConnectionDetails None "room" "me") tt
      = Thrown (tokenServiceError authenticationFailed)
      <-> result (scripted server_error) getClerkSessionToken tt = None).
Proof.
  apply (fetchConnectionDetails_own_errors (scripted server_error) None "room" "me" tt).
  intros e. vm_compute. discriminate.
Defined.

Lemma decode_first_error_witness :
  decode_BackendResponse
    (mkData None (Some (JObject {[ "session_id" := JString "s-1" ]})))
  = Thrown (keyNotFound "room_name")
  /\ (({[ "session_id" := JString "s-1" ]} : gmap string JSON) !! "room_name" = None ->
      keyNotFound "room_name" = keyNotFound "room_name")
  /\ (({[ "session_id" := JString "s-1" ]} : gmap string JSON) !! "room_name" = Some JNull ->
      keyNotFound "room_name" = valueNotFound "room_name").
Proof.
  apply (decode_first_error None {[ "session_id" := JString "s-1" ]} ["session_id"]
           ["livekit_token"; "livekit_url"; "agent_type"; "user_id"] "room_name"
           (keyNotFound "room_name")).
  - reflexivity.
  - apply Forall_singleton. by exists "s-1".
  - reflexivity.
Defined.

Lemma decode_ignores_other_keys_witness :
  decode_BackendResponse
    (mkData None (Some (JObject (<["expires_at" := JNumber 1700000000]> session_object))))
  = decode_BackendResponse (mkData None (Some (JObject session_object))).
Proof.
  apply (decode_ignores_other_keys None session_object "expires_at" (JNumber 1700000000)).
  unfold coding_keys. intros Hin.
  repeat (apply elem_of_cons in Hin as [Heq|Hin]; [discriminate Heq|]).
  by apply elem_of_nil in Hin.
Defined.
End IOSCodingFacts.
